(** * Fraud review workflow: a shallow embedding of the Lambda handler

    The development follows [FraudDetection-Lambda/app.py] (the durable
    handler and its steps) and the request check of
    [FraudDetection-Agent/agent.py].  Python values are a small inductive
    type, dictionaries are finite maps, exceptions are an explicit result
    type, and the calls made on the durable context are recorded in a
    trace next to the ledger of memoized step results. *)

From Stdlib Require Import ZArith String Ascii DecimalString.
From Stdlib Require Import Floats.SpecFloat.
From stdpp Require Import gmap strings list fin_maps.

Set Warnings "-register-all".
Local Open Scope string_scope.
Local Open Scope Z_scope.

(** ** Python values *)

Module Py.

(** JSON-shaped Python data: what an event, a scorer reply or a handler
    result can hold. *)
Inductive value : Type :=
| VNone
| VBool (b : bool)
| VInt (z : Z)
| VFloat (f : spec_float)
| VStr (s : string)
| VList (l : list value)
| VDict (d : gmap string value).

(** An exception is known by its class and by the text [str(e)] gives. *)
Record exception : Type := Exc { exc_type : string; exc_str : string }.

Definition KeyError (key : string) : exception :=
  Exc "KeyError" ("'" +:+ key +:+ "'").
Definition TypeError (msg : string) : exception := Exc "TypeError" msg.
Definition ValueError (msg : string) : exception := Exc "ValueError" msg.
Definition AttributeError (msg : string) : exception :=
  Exc "AttributeError" msg.

(** Outcome of evaluating Python code: a value or a raised exception. *)
Inductive result (A : Type) : Type :=
| Ok (a : A)
| Raise (e : exception).
Arguments Ok {A} a.
Arguments Raise {A} e.

Definition type_name (v : value) : string :=
  match v with
  | VNone => "NoneType"
  | VBool _ => "bool"
  | VInt _ => "int"
  | VFloat _ => "float"
  | VStr _ => "str"
  | VList _ => "list"
  | VDict _ => "dict"
  end.

(** Truth value of an object, as [not x] and [if x] test it. *)
Definition truthy (v : value) : bool :=
  match v with
  | VNone => false
  | VBool b => b
  | VInt z => negb (Z.eqb z 0)
  | VFloat f =>
      match f with
      | S754_zero _ => false
      | _ => true
      end
  | VStr s => negb (String.eqb s "")
  | VList l => match l with [] => false | _ => true end
  | VDict d => negb (bool_decide (d = ∅))
  end.

(** *** Ordering a number against an integer literal

    Python compares [int] with [float] by exact value; a NaN is unordered
    with everything. *)
Inductive ordering : Type :=
| Ordered (c : comparison)
| Unordered.

Definition float_cmp_int (f : spec_float) (k : Z) : ordering :=
  match f with
  | S754_zero _ => Ordered (0 ?= k)
  | S754_infinity false => Ordered Gt
  | S754_infinity true => Ordered Lt
  | S754_nan => Unordered
  | S754_finite s m e =>
      let n := if s then Z.neg m else Z.pos m in
      if 0 <=? e
      then Ordered (n * 2 ^ e ?= k)
      else Ordered (n ?= k * 2 ^ (- e))
  end.

(** [None] when the left operand is not a number ([bool] is a subclass of
    [int]). *)
Definition cmp_int (v : value) (k : Z) : option ordering :=
  match v with
  | VInt z => Some (Ordered (z ?= k))
  | VBool b => Some (Ordered (Z.b2z b ?= k))
  | VFloat f => Some (float_cmp_int f k)
  | _ => None
  end.

Definition unorderable (opname : string) (v : value) : exception :=
  TypeError ("'" +:+ opname +:+ "' not supported between instances of '"
             +:+ type_name v +:+ "' and 'int'").

(** [v != k]: never raises; objects that are not numbers differ from [k]. *)
Definition ne_int (v : value) (k : Z) : bool :=
  match cmp_int v k with
  | Some (Ordered Eq) => false
  | _ => true
  end.

(** [v < k] *)
Definition lt_int (v : value) (k : Z) : result bool :=
  match cmp_int v k with
  | Some (Ordered Lt) => Ok true
  | Some _ => Ok false
  | None => Raise (unorderable "<" v)
  end.

(** [v >= k] *)
Definition ge_int (v : value) (k : Z) : result bool :=
  match cmp_int v k with
  | Some (Ordered Lt) => Ok false
  | Some (Ordered _) => Ok true
  | Some Unordered => Ok false
  | None => Raise (unorderable ">=" v)
  end.

(** [k < v], evaluated as the reflected [v > k] *)
Definition int_lt (k : Z) (v : value) : result bool :=
  match cmp_int v k with
  | Some (Ordered Gt) => Ok true
  | Some _ => Ok false
  | None => Raise (unorderable "<" v)
  end.

(** *** Strings *)

Definition lower_ascii (c : ascii) : ascii :=
  let n := N_of_ascii c in
  if ((65 <=? n) && (n <=? 90))%N then ascii_of_N (n + 32) else c.

(** [s.lower()] on the ASCII letters, which is all a search for an ASCII
    word can see. *)
Fixpoint lower (s : string) : string :=
  match s with
  | EmptyString => EmptyString
  | String c t => String (lower_ascii c) (lower t)
  end.

(** [needle in hay] for strings. *)
Fixpoint contains (needle hay : string) : bool :=
  String.prefix needle hay
  || match hay with
     | EmptyString => false
     | String _ t => contains needle t
     end.

(** [d.get(key, default)] and [d[key]] on a dictionary. *)
Definition get (d : gmap string value) (key : string) (default : value)
  : value :=
  match d !! key with
  | Some v => v
  | None => default
  end.

Definition getitem (d : gmap string value) (key : string) : result value :=
  match d !! key with
  | Some v => Ok v
  | None => Raise (KeyError key)
  end.

(** [o.get(key, default)] on an arbitrary object: only a [dict] has the
    method. *)
Definition obj_get (o : value) (key : string) (default : value)
  : result value :=
  match o with
  | VDict d => Ok (get d key default)
  | _ => Raise (AttributeError
                  ("'" +:+ type_name o +:+ "' object has no attribute 'get'"))
  end.

(** [o[key]] on an arbitrary object with a string key. *)
Definition obj_getitem (o : value) (key : string) : result value :=
  match o with
  | VDict d => getitem d key
  | _ => Raise (TypeError
                  ("'" +:+ type_name o +:+ "' object is not subscriptable"))
  end.

Definition is_none (v : value) : bool :=
  match v with
  | VNone => true
  | _ => false
  end.

End Py.
Export Py.

(** ** The durable execution context

    The handler runs against the durable-execution library
    ([DurableContext], [context.step], [context.parallel],
    [wait_for_callback]), which is not part of the sources.  Its
    configuration records are transcribed from the constructor calls in
    [app.py]; its operations are modelled as far as the handler uses them. *)

Module Durable.

Record Duration : Type := { total_seconds : Z }.

(** [Duration.from_days(d)] *)
Definition from_days (d : Z) : Duration := {| total_seconds := d * 86400 |}.

Record RetryStrategyConfig : Type := {
  max_attempts : Z;
  retryable_error_types : list string
}.

Record StepConfig : Type := { retry_strategy : RetryStrategyConfig }.

Record WaitForCallbackConfig : Type := {
  timeout : Duration;
  callback_retry_strategy : RetryStrategyConfig
}.

Record CompletionConfig : Type := {
  min_successful : Z;
  tolerated_failure_count : Z
}.

Record ParallelConfig : Type := {
  max_concurrency : Z;
  completion_config : CompletionConfig
}.

(** What [context.parallel] hands back; the handler reads
    [success_count] only. *)
Record BatchResult : Type := {
  success_count : Z;
  failure_count : Z
}.

(** Calls observed on the context and on the outside world, in the order
    they happen. *)
Inductive op : Type :=
| LogInfo (msg : string) (args : list value)
| StepStarted (name : string) (config : option StepConfig)
| StepReplayed (name : string)
| InvokeAgentRuntime (arn : string) (payload : value)
| WaitForCallback (name : string) (config : WaitForCallbackConfig)
| ParallelStarted (name : string) (config : ParallelConfig) (branches : nat)
| BranchStarted (name : string) (index : nat).

(** The state a run carries: the ledger of recorded step results and the
    trace of calls made so far. *)
Record DurableContext : Type := {
  ledger : gmap string value;
  trace : list op
}.

(** A first invocation: nothing recorded, nothing done. *)
Definition fresh : DurableContext := {| ledger := ∅; trace := [] |}.

(** Everything the run does not control: the process environment, the
    scorer behind [invoke_agent_runtime] (the call, reading the stream and
    [json.loads] together: the parsed reply or the exception raised), the
    callback ids handed out, how each callback wait ends (the delivered
    payload, or the exception [wait_for_callback] raises), and how the
    coordinator of a fan-out counts the outcomes of its branches. *)
Record Environment : Type := {
  AGENT_RUNTIME_ARN : option string;
  invoke_agent_runtime : string -> value -> result value;
  new_callback_id : string -> string;
  callback_outcome : string -> result value;
  batch_result : ParallelConfig -> list (result value) -> BatchResult
}.

(** *** The monad of handler code: state passing with exceptions *)

Definition M (A : Type) : Type := DurableContext -> result A * DurableContext.

Definition ret {A} (a : A) : M A := fun ctx => (Ok a, ctx).

Definition raise {A} (e : exception) : M A := fun ctx => (Raise e, ctx).

Definition bind {A B} (m : M A) (k : A -> M B) : M B :=
  fun ctx =>
    match m ctx with
    | (Ok a, ctx') => k a ctx'
    | (Raise e, ctx') => (Raise e, ctx')
    end.

Definition lift {A} (r : result A) : M A := fun ctx => (r, ctx).

(** [try: body  except Exception as e: handler(e)] *)
Definition try_except {A} (body : M A) (handler : exception -> M A) : M A :=
  fun ctx =>
    match body ctx with
    | (Ok a, ctx') => (Ok a, ctx')
    | (Raise e, ctx') => handler e ctx'
    end.

Definition record (o : op) (ctx : DurableContext) : DurableContext :=
  {| ledger := ledger ctx; trace := trace ctx ++ [o] |}.

Definition emit (o : op) : M unit := fun ctx => (Ok tt, record o ctx).

(** [logger.info(f"...")], the formatted fields kept apart from the text. *)
Definition logger_info (msg : string) (args : list value) : M unit :=
  emit (LogInfo msg args).

End Durable.
Export Durable.

Notation "'let*' x := c1 'in' c2" := (bind c1 (fun x => c2))
  (at level 10, x name, c1 at level 100, c2 at level 200).
Notation "c1 ;; c2" := (bind c1 (fun _ => c2))
  (at level 100, c2 at level 200, right associativity).

Module DurableOps.

(** Modelled from the spec: the Step Executor behind [context.step]
    (section 4.3), which the library provides.  A step whose name already
    has a recorded result returns it without calling the body; otherwise
    the body runs, and its result is appended to the ledger under the
    step's name.  The body stands for its last attempt: a failure that
    survives the retry policy is propagated to the caller. *)
Definition step (body : M value) (name : string) (config : option StepConfig)
  : M value :=
  fun ctx =>
    match ledger ctx !! name with
    | Some v => (Ok v, record (StepReplayed name) ctx)
    | None =>
        match body (record (StepStarted name config) ctx) with
        | (Ok v, ctx') =>
            (Ok v, {| ledger := <[name := v]> (ledger ctx');
                      trace := trace ctx' |})
        | (Raise e, ctx') => (Raise e, ctx')
        end
    end.

(** Modelled from the spec: the Callback Gateway behind
    [wait_for_callback] (section 4.4).  A waiter is registered under the
    given timeout, the submitter is called with the waiter's callback id,
    and the wait ends the way the environment says: with the delivered
    payload or with a raised exception. *)
Definition wait_for_callback (E : Environment)
    (submitter : string -> M value) (name : string)
    (config : WaitForCallbackConfig) : M value :=
  emit (WaitForCallback name config) ;;
  submitter (new_callback_id E name) ;;
  lift (callback_outcome E name).

(** A branch never throws into the parent run: its outcome is collected. *)
Definition collect (branch : M value) : M (result value) :=
  fun ctx => let '(r, ctx') := branch ctx in (Ok r, ctx').

Fixpoint run_branches (name : string) (index : nat)
    (branches : list (M value)) : M (list (result value)) :=
  match branches with
  | [] => ret []
  | branch :: rest =>
      emit (BranchStarted name index) ;;
      let* r := collect branch in
      let* rs := run_branches name (S index) rest in
      ret (r :: rs)
  end.

(** Modelled from the spec: the Parallel Branch Coordinator behind
    [context.parallel] (section 4.5).  Every branch is launched and runs to
    its own outcome (the order of concurrent branches is abstracted to
    list order); the aggregate handed to the parent is the coordinator's,
    from the configuration and the outcomes. *)
Definition parallel (E : Environment) (branches : list (M value))
    (name : string) (config : ParallelConfig) : M BatchResult :=
  emit (ParallelStarted name config (length branches)) ;;
  let* outcomes := run_branches name 0 branches in
  ret (batch_result E config outcomes).

End DurableOps.
Export DurableOps.

(** ** The Lambda function: [FraudDetection-Lambda/app.py] *)

Module App.

(** Shared retry configuration of the notification steps. *)
Definition _notification_retry_strategy : RetryStrategyConfig :=
  {| max_attempts := 3;
     retryable_error_types := ["ConnectionError"; "TimeoutError"] |}.

(** *** Pure business logic *)

Definition _authorize_logic (tx : gmap string value)
    (customer_rejection : bool) : result value :=
  match getitem tx "id" with
  | Raise e => Raise e
  | Ok tx_id =>
  match getitem tx "amount" with
  | Raise e => Raise e
  | Ok tx_amount =>
  match getitem tx "score" with
  | Raise e => Raise e
  | Ok tx_score =>
      let body : gmap string value :=
        <["transaction_id" := tx_id]>
          (<["amount" := tx_amount]>
             (<["fraud_score" := tx_score]>
                (<["result" := VStr "authorized"]> ∅))) in
      let body :=
        if customer_rejection
        then <["customerVerificationResult" := VStr "TransactionApproved"]>
               body
        else body in
      Ok (VDict (<["statusCode" := VInt 200]> (<["body" := VDict body]> ∅)))
  end end end.

Definition _fraud_logic (tx : gmap string value)
    (customer_rejection : bool) : result value :=
  match getitem tx "id" with
  | Raise e => Raise e
  | Ok tx_id =>
  match getitem tx "amount" with
  | Raise e => Raise e
  | Ok tx_amount =>
  match getitem tx "score" with
  | Raise e => Raise e
  | Ok tx_score =>
      let body : gmap string value :=
        <["transaction_id" := tx_id]>
          (<["amount" := tx_amount]>
             (<["fraud_score" := tx_score]>
                (<["result" := VStr "SentToFraudDept"]> ∅))) in
      let body :=
        if customer_rejection
        then <["customerVerificationResult" := VStr "TransactionDeclined"]>
               body
        else body in
      Ok (VDict (<["statusCode" := VInt 200]> (<["body" := VDict body]> ∅)))
  end end end.

(** *** Durable steps *)

(** [not AGENT_RUNTIME_ARN]: unset, or set to the empty string. *)
Definition arn_of (E : Environment) : option string :=
  match AGENT_RUNTIME_ARN E with
  | Some arn => if String.eqb arn "" then None else Some arn
  | None => None
  end.

Definition check_fraud_score (E : Environment)
    (amount location vendor score : value) : M value :=
  if ne_int score 0 then ret score
  else
    logger_info "No score submitted, sending to Fraud Agent for assessment"
      [] ;;
    match arn_of E with
    | None =>
        raise (ValueError "AGENT_RUNTIME_ARN environment variable is not set")
    | Some arn =>
        let payload :=
          VDict (<["input" :=
                     VDict (<["amount" := amount]>
                              (<["location" := location]>
                                 (<["vendor" := vendor]> ∅)))]> ∅) in
        emit (InvokeAgentRuntime arn payload) ;;
        let* response_body := lift (invoke_agent_runtime E arn payload) in
        logger_info "Agent response: {}" [response_body] ;;
        let* output := lift (obj_get response_body "output" (VDict ∅)) in
        let* risk := lift (obj_get output "risk_score" VNone) in
        if negb (is_none risk)
        then
          let* output := lift (obj_getitem response_body "output") in
          lift (obj_getitem output "risk_score")
        else
          logger_info
            "No valid response from agent, sending to Fraud department" [] ;;
          ret (VInt 5)
    end.

Definition authorize_transaction (tx : gmap string value)
    (customer_rejection : bool) : M value :=
  let* tx_id := lift (getitem tx "id") in
  logger_info "Authorizing transactionId: {}" [tx_id] ;;
  lift (_authorize_logic tx customer_rejection).

Definition suspend_transaction (tx : gmap string value) : M value :=
  let* tx_id := lift (getitem tx "id") in
  logger_info "Suspending transactionId: {}" [tx_id] ;;
  ret (VBool true).

Definition send_to_fraud (tx : gmap string value)
    (customer_rejection : bool) : M value :=
  let* tx_id := lift (getitem tx "id") in
  logger_info "Escalating to fraud department - transactionId: {}" [tx_id] ;;
  lift (_fraud_logic tx customer_rejection).

Definition send_email_notification (callback_id : string)
    (tx : gmap string value) : M value :=
  logger_info "Email notification sent with callbackId: {}"
    [VStr callback_id] ;;
  ret VNone.

Definition send_sms_notification (callback_id : string)
    (tx : gmap string value) : M value :=
  logger_info "SMS notification sent with callbackId: {}"
    [VStr callback_id] ;;
  ret VNone.

(** *** The verification branches and the final decision

    In the source these three functions are nested in [handler]; the
    variables they capture ([tx], [verified]) are parameters here. *)

Definition email_verification (E : Environment) (tx : gmap string value)
  : M value :=
  try_except
    (let* result :=
       wait_for_callback E
         (fun callback_id =>
            step (send_email_notification callback_id tx)
              "SendVerificationEmail"
              (Some {| retry_strategy := _notification_retry_strategy |}))
         "emailVerification"
         {| timeout := from_days 1;
            callback_retry_strategy := _notification_retry_strategy |} in
     ret (VDict (<["success" := VBool true]>
                   (<["channel" := VStr "email"]>
                      (<["result" := result]> ∅)))))
    (fun e =>
       if contains "timeout" (lower (exc_str e))
       then
         logger_info "Email verification timed out: {}" [VStr (exc_str e)] ;;
         ret (VDict (<["success" := VBool false]>
                       (<["channel" := VStr "email"]>
                          (<["error" := VStr "timeout"]> ∅))))
       else raise e).

Definition sms_verification (E : Environment) (tx : gmap string value)
  : M value :=
  try_except
    (let* result :=
       wait_for_callback E
         (fun callback_id =>
            step (send_sms_notification callback_id tx)
              "SendVerificationSMS"
              (Some {| retry_strategy := _notification_retry_strategy |}))
         "smsVerification"
         {| timeout := from_days 1;
            callback_retry_strategy := _notification_retry_strategy |} in
     ret (VDict (<["success" := VBool true]>
                   (<["channel" := VStr "sms"]>
                      (<["result" := result]> ∅)))))
    (fun e =>
       if contains "timeout" (lower (exc_str e))
       then
         logger_info "SMS verification timed out: {}" [VStr (exc_str e)] ;;
         ret (VDict (<["success" := VBool false]>
                       (<["channel" := VStr "sms"]>
                          (<["error" := VStr "timeout"]> ∅))))
       else raise e).

Definition advance_transaction (tx : gmap string value)
    (verified : BatchResult) : M value :=
  let has_success := 0 <? success_count verified in
  if has_success
  then
    logger_info "Verification passed — authorizing transaction" [] ;;
    lift (_authorize_logic tx true)
  else
    logger_info "Verification failed — escalating to fraud department" [] ;;
    lift (_fraud_logic tx true).

(** *** Main handler *)

Definition handler (E : Environment) (event : gmap string value) : M value :=
  match event !! "callbackId" with
  | Some callback_id =>
      logger_info "Callback received for callbackId: {}" [callback_id] ;;
      ret (VDict event)
  | None =>
      let* event_id := lift (getitem event "id") in
      let* event_amount := lift (getitem event "amount") in
      let* event_location := lift (getitem event "location") in
      let* event_vendor := lift (getitem event "vendor") in
      let tx : gmap string value :=
        <["id" := event_id]>
          (<["amount" := event_amount]>
             (<["location" := event_location]>
                (<["vendor" := event_vendor]>
                   (<["score" := get event "score" (VInt 0)]> ∅)))) in
      (* Step 1: get or compute the fraud risk score *)
      let* amount := lift (getitem tx "amount") in
      let* location := lift (getitem tx "location") in
      let* vendor := lift (getitem tx "vendor") in
      let* score := lift (getitem tx "score") in
      let* scored :=
        step (check_fraud_score E amount location vendor score)
          "fraudCheck" None in
      let tx := <["score" := scored]> tx in
      let* score := lift (getitem tx "score") in
      logger_info "Transaction Score = {}" [score] ;;
      (* Low risk: authorize immediately *)
      let* score := lift (getitem tx "score") in
      let* low := lift (lt_int score 3) in
      if low then step (authorize_transaction tx false) "Authorize" None
      else
      (* High risk: escalate to the fraud department *)
      let* score := lift (getitem tx "score") in
      let* high := lift (ge_int score 5) in
      if high then step (send_to_fraud tx false) "sendToFraud" None
      else
      (* Medium risk: suspend and request human verification *)
      let* score := lift (getitem tx "score") in
      let* above := lift (int_lt 2 score) in
      let* medium :=
        if above
        then let* score := lift (getitem tx "score") in lift (lt_int score 5)
        else ret false in
      if medium
      then
        step (suspend_transaction tx) "suspendTransaction" None ;;
        let* verified :=
          parallel E [email_verification E tx; sms_verification E tx]
            "human-verification"
            {| max_concurrency := 2;
               completion_config :=
                 {| min_successful := 1; tolerated_failure_count := 1 |} |} in
        step (advance_transaction tx verified) "advanceTransaction" None
      else
        let* tx_id := lift (getitem tx "id") in
        let* tx_amount := lift (getitem tx "amount") in
        let* tx_score := lift (getitem tx "score") in
        ret (VDict (<["statusCode" := VInt 400]>
                      (<["body" :=
                           VDict (<["transaction_id" := tx_id]>
                                    (<["amount" := tx_amount]>
                                       (<["fraud_score" := tx_score]>
                                          (<["result" := VStr "Unknown"]>
                                             ∅))))]> ∅)))
  end.

End App.
Export App.

(** ** The scorer's front door: [FraudDetection-Agent/agent.py] *)

Module Agent.

(** What the endpoint answers: the response model, or an [HTTPException]. *)
Inductive http_result : Type :=
| InvocationResponse (output : gmap string value)
| HTTPException (status_code : Z) (detail : string).

(** The collaborators of [invoke_agent]: the agent run behind
    [analyze_transaction] and the error the response model raises for an
    output that is not a dictionary. *)
Record AgentWorld : Type := {
  analyze_transaction : gmap string value -> result value;
  validation_error : value -> exception
}.

Definition invoke_agent (W : AgentWorld) (input_data : gmap string value)
  : http_result :=
  if bool_decide (input_data !! "amount" = None)
     || negb (truthy (get input_data "amount" VNone))
  then
    HTTPException 400
      "Amount not provided. Please include 'amount' (in USD) in the request."
  else
    match analyze_transaction W input_data with
    | Ok (VDict output) => InvocationResponse output
    | Ok v =>
        HTTPException 500
          ("Agent processing failed: " +:+ exc_str (validation_error W v))
    | Raise e =>
        HTTPException 500 ("Agent processing failed: " +:+ exc_str e)
    end.

End Agent.

(** ** Observations on a run *)

Module Observe.

(** The context after some more calls, the ledger untouched. *)
Definition extend (ctx : DurableContext) (ops : list op) : DurableContext :=
  {| ledger := ledger ctx; trace := trace ctx ++ ops |}.

(** [r[key]] and [r["body"][key]] of a handler result. *)
Definition field (r : value) (key : string) : option value :=
  match r with
  | VDict d => d !! key
  | _ => None
  end.

Definition body_field (r : value) (key : string) : option value :=
  match field r "body" with
  | Some body => field body key
  | None => None
  end.

(** The scored value of a transaction: what step [fraudCheck] recorded in
    a first run of the handler on the event. *)
Definition scored_value (E : Environment) (event : gmap string value)
  : option value :=
  ledger (snd (handler E event fresh)) !! "fraudCheck".

(** Calls that belong to the verification fan-out. *)
Definition parallel_op (o : op) : bool :=
  match o with
  | ParallelStarted _ _ _ | BranchStarted _ _ | WaitForCallback _ _ => true
  | _ => false
  end.

(** A call of the step with the given name, run or replayed. *)
Definition step_op (name : string) (o : op) : bool :=
  match o with
  | StepStarted n _ | StepReplayed n => String.eqb n name
  | _ => false
  end.

(** The body of a step is run (not replayed). *)
Definition step_run (name : string) (o : op) : bool :=
  match o with
  | StepStarted n _ => String.eqb n name
  | _ => false
  end.

Definition agent_op (o : op) : bool :=
  match o with
  | InvokeAgentRuntime _ _ => true
  | _ => false
  end.

(** A computation that only adds to the trace: it neither reads nor
    writes the ledger, so its result and its calls are those it has on a
    fresh context. *)
Definition writer {A} (m : M A) : Prop :=
  forall ctx, m ctx = (fst (m fresh), extend ctx (trace (snd (m fresh)))).

(** Result and calls of the body of step [fraudCheck]. *)
Definition scoring (E : Environment) (amount location vendor score : value)
  : result value :=
  fst (check_fraud_score E amount location vendor score fresh).

Definition scoring_ops (E : Environment)
    (amount location vendor score : value) : list op :=
  trace (snd (check_fraud_score E amount location vendor score fresh)).

(** The only calls a scoring can make. *)
Definition scoring_op (o : op) : bool :=
  match o with
  | LogInfo _ _ | InvokeAgentRuntime _ _ => true
  | _ => false
  end.

(** The request sent to the scorer. *)
Definition scorer_payload (amount location vendor : value) : value :=
  VDict (<["input" :=
             VDict (<["amount" := amount]>
                      (<["location" := location]>
                         (<["vendor" := vendor]> ∅)))]> ∅).


(** The workflow result shape. *)
Definition response (status : Z) (tx_id amount fraud_score : value)
    (outcome : string) (verification : option string) : value :=
  let body : gmap string value :=
    <["transaction_id" := tx_id]>
      (<["amount" := amount]>
         (<["fraud_score" := fraud_score]>
            (<["result" := VStr outcome]> ∅))) in
  let body :=
    match verification with
    | Some answer => <["customerVerificationResult" := VStr answer]> body
    | None => body
    end in
  VDict (<["statusCode" := VInt status]> (<["body" := VDict body]> ∅)).

(** The fields the handler reads with [event[...]], in reading order, and
    the first of them an event lacks. *)
Definition required_fields : list string :=
  ["id"; "amount"; "location"; "vendor"].

Definition first_missing (event : gmap string value) : option string :=
  List.find (fun key => bool_decide (event !! key = None)) required_fields.


(** The timeout test of the verification branches, on the text of the
    exception. *)
Definition mentions_timeout (e : exception) : bool :=
  contains "timeout" (lower (exc_str e)).

(** Configuration of the fan-out and of its waiters, as [handler] writes
    them. *)
Definition human_verification : ParallelConfig :=
  {| max_concurrency := 2;
     completion_config :=
       {| min_successful := 1; tolerated_failure_count := 1 |} |}.

Definition verification_wait : WaitForCallbackConfig :=
  {| timeout := from_days 1;
     callback_retry_strategy := _notification_retry_strategy |}.

Definition notification_step : option StepConfig :=
  Some {| retry_strategy := _notification_retry_strategy |}.

(** What a verification branch returns for each way its wait can end. *)
Definition branch_result (channel : string) (outcome : result value)
  : result value :=
  match outcome with
  | Ok payload =>
      Ok (VDict (<["success" := VBool true]>
                   (<["channel" := VStr channel]>
                      (<["result" := payload]> ∅))))
  | Raise e =>
      if mentions_timeout e
      then Ok (VDict (<["success" := VBool false]>
                        (<["channel" := VStr channel]>
                           (<["error" := VStr "timeout"]> ∅))))
      else Raise e
  end.

(** The log line a branch writes when its wait timed out. *)
Definition branch_log (msg : string) (outcome : result value) : list op :=
  match outcome with
  | Ok _ => []
  | Raise e =>
      if mentions_timeout e then [LogInfo msg [VStr (exc_str e)]] else []
  end.

(** The aggregate of the fan-out in a run under [E]. *)
Definition verified (E : Environment) : BatchResult :=
  batch_result E human_verification
    [branch_result "email" (callback_outcome E "emailVerification");
     branch_result "sms" (callback_outcome E "smsVerification")].

(** The calls of the two branches on a first run. *)
Definition email_ops (E : Environment) : list op :=
  [BranchStarted "human-verification" 0;
   WaitForCallback "emailVerification" verification_wait;
   StepStarted "SendVerificationEmail" notification_step;
   LogInfo "Email notification sent with callbackId: {}"
     [VStr (new_callback_id E "emailVerification")]]
  ++ branch_log "Email verification timed out: {}"
       (callback_outcome E "emailVerification").

Definition sms_ops (E : Environment) : list op :=
  [BranchStarted "human-verification" 1;
   WaitForCallback "smsVerification" verification_wait;
   StepStarted "SendVerificationSMS" notification_step;
   LogInfo "SMS notification sent with callbackId: {}"
     [VStr (new_callback_id E "smsVerification")]]
  ++ branch_log "SMS verification timed out: {}"
       (callback_outcome E "smsVerification").

(** The decision of the final step, as a function of the aggregate, and
    the line it logs. *)
Definition decision (tx_id amount score : value) (batch : BatchResult)
  : value :=
  if 0 <? success_count batch
  then response 200 tx_id amount score "authorized"
         (Some "TransactionApproved")
  else response 200 tx_id amount score "SentToFraudDept"
         (Some "TransactionDeclined").

Definition decision_log (batch : BatchResult) : op :=
  if 0 <? success_count batch
  then LogInfo "Verification passed — authorizing transaction" []
  else LogInfo "Verification failed — escalating to fraud department" [].

(** [m], started on [ctx], ends with [r] and leaves [ctx']. *)
Definition runs {A} (m : M A) (ctx : DurableContext) (r : result A)
    (ctx' : DurableContext) : Prop :=
  m ctx = (r, ctx').

(** The steps that end a transaction run, and the one an integer score
    leads to. *)
Definition terminal_step (o : op) : bool :=
  step_run "Authorize" o || step_run "sendToFraud" o
  || step_run "advanceTransaction" o.

Definition path_of (z : Z) : string :=
  if z <? 3 then "Authorize"
  else if 5 <=? z then "sendToFraud"
  else "advanceTransaction".

(** The body of some step is run. *)
Definition step_started (o : op) : bool :=
  match o with
  | StepStarted _ _ => true
  | _ => false
  end.

End Observe.
Export Observe.

(** ** Concrete runs *)

Module Scenarios.

Definition transaction (tx_id amount : Z) (location vendor : string)
    (score : Z) : gmap string value :=
  <["id" := VInt tx_id]>
    (<["amount" := VInt amount]>
       (<["location" := VStr location]>
          (<["vendor" := VStr vendor]>
             (<["score" := VInt score]> ∅)))).

(** The three sample transactions of the agent's demo, unscored. *)
Definition electronics : gmap string value :=
  transaction 3 6500 "Los Angeles" "Electronics Store" 0.
Definition coffee : gmap string value :=
  transaction 7 45 "Portland" "Coffee Shop" 0.
Definition gaming : gmap string value :=
  transaction 12 1200 "Seattle" "Online Gaming Store" 0.

(** A transaction that arrives with a score. *)
Definition prescored : gmap string value :=
  transaction 21 80 "Portland" "Book Shop" 2.


(** What [callback_id.py] sends. *)
Definition callback_event : gmap string value :=
  <["callbackId" := VStr "cb-1"]> (<["result" := VStr "approved"]> ∅).

(** A coordinator that counts the branches that returned and those that
    raised. *)
Definition count_outcomes (config : ParallelConfig)
    (outcomes : list (result value)) : BatchResult :=
  {| success_count :=
       Z.of_nat (length (List.filter
                           (fun r => match r with Ok _ => true | _ => false end)
                           outcomes));
     failure_count :=
       Z.of_nat (length (List.filter
                           (fun r => match r with Ok _ => false | _ => true end)
                           outcomes)) |}.

Definition wait_timeout : exception :=
  Exc "CallbackError" "Callback timeout exceeded".

Definition wait_cancelled : exception :=
  Exc "CallbackError" "Callback was cancelled".

(** A scorer that answers with the given risk score; the email callback
    is delivered, the SMS wait ends as given. *)
Definition scorer (risk : Z) (sms : result value) : Environment :=
  {| AGENT_RUNTIME_ARN := Some "arn:aws:bedrock-agentcore:fraud-agent";
     invoke_agent_runtime := fun _ _ =>
       Ok (VDict (<["output" :=
                      VDict (<["risk_score" := VInt risk]>
                               (<["amount" := VInt 0]> ∅))]> ∅));
     new_callback_id := fun name => "cb-" +:+ name;
     callback_outcome := fun name =>
       if String.eqb name "emailVerification"
       then Ok (VDict (<["result" := VStr "approved"]> ∅))
       else sms;
     batch_result := count_outcomes |}.

(** A scorer that cannot be reached. *)
Definition offline : Environment :=
  {| AGENT_RUNTIME_ARN := Some "arn:aws:bedrock-agentcore:fraud-agent";
     invoke_agent_runtime := fun _ _ =>
       Raise (Exc "ConnectionError" "could not connect to the endpoint");
     new_callback_id := fun name => "cb-" +:+ name;
     callback_outcome := fun _ => Raise wait_timeout;
     batch_result := count_outcomes |}.


(** Nobody answers: the email wait times out, the SMS wait is cancelled. *)
Definition silent : Environment :=
  {| AGENT_RUNTIME_ARN := Some "arn:aws:bedrock-agentcore:fraud-agent";
     invoke_agent_runtime := fun _ _ =>
       Ok (VDict (<["output" := VDict (<["risk_score" := VInt 3]> ∅)]> ∅));
     new_callback_id := fun name => "cb-" +:+ name;
     callback_outcome := fun name =>
       if String.eqb name "emailVerification"
       then Raise wait_timeout
       else Raise wait_cancelled;
     batch_result := count_outcomes |}.

(** A scorer that answers with a score that is not a number one can
    order: a NaN. *)
Definition confused : Environment :=
  {| AGENT_RUNTIME_ARN := Some "arn:aws:bedrock-agentcore:fraud-agent";
     invoke_agent_runtime := fun _ _ =>
       Ok (VDict (<["output" :=
                      VDict (<["risk_score" := VFloat S754_nan]> ∅)]> ∅));
     new_callback_id := fun name => "cb-" +:+ name;
     callback_outcome := fun _ => Raise wait_timeout;
     batch_result := count_outcomes |}.

End Scenarios.

(** ** The rule tools of the agent:
    [FraudDetection-Agent/agent_fraud_detection.py]

    The three tools on names and scores.  Text is held as its UTF-8
    bytes. *)

Module Tools.

(** [any(keyword in text for keyword in keywords)] *)
Definition any_in (keywords : list string) (text : string) : bool :=
  existsb (fun keyword => contains keyword text) keywords.

Definition high_risk_keywords : list string :=
  ["electronics"; "gift card"; "wire transfer"; "crypto";
   "jewelry"; "luxury"; "gold"; "forex"; "bitcoin"].

Definition medium_risk_keywords : list string :=
  ["online"; "gaming"; "casino"; "travel"; "hotel";
   "airline"; "international"].

Definition check_vendor_risk (vendor : string) : gmap string value :=
  let vendor_lower := lower vendor in
  let '(risk_level, risk_score) :=
    if any_in high_risk_keywords vendor_lower then ("HIGH", 30)
    else if any_in medium_risk_keywords vendor_lower then ("MEDIUM", 15)
    else ("LOW", 5) in
  <["check" := VStr "vendor_check"]>
    (<["vendor" := VStr vendor]>
       (<["risk_level" := VStr risk_level]>
          (<["risk_score" := VInt risk_score]>
             (<["message" :=
                  VStr ("Vendor '" +:+ vendor +:+ "' classified as "
                        +:+ risk_level +:+ " risk")]> ∅)))).

(** [s.lower()] on UTF-8 text, as far as a search for an ASCII word can
    tell: the ASCII letters are lowered; U+0130 (bytes C4 B0) becomes "i"
    followed by U+0307 (bytes CC 87) and U+212A (bytes E2 84 AA) becomes
    "k", these being the only characters outside ASCII whose lowercase
    holds an ASCII letter; every other character is left as it is.  (For
    the vendor keywords above, none of which holds a "k" or ends in "i",
    this finds what [lower] finds.) *)
Definition is_byte (n : N) (c : ascii) : bool := (N_of_ascii c =? n)%N.

Fixpoint str_lower (s : string) : string :=
  match s with
  | EmptyString => EmptyString
  | String c1 t1 =>
      match t1 with
      | EmptyString => String (lower_ascii c1) EmptyString
      | String c2 t2 =>
          if is_byte 196 c1 && is_byte 176 c2
          then String "i" (String (ascii_of_N 204)
                             (String (ascii_of_N 135) (str_lower t2)))
          else
            match t2 with
            | EmptyString => String (lower_ascii c1) (str_lower t1)
            | String c3 t3 =>
                if is_byte 226 c1 && is_byte 132 c2 && is_byte 170 c3
                then String "k" (str_lower t3)
                else String (lower_ascii c1) (str_lower t1)
            end
      end
  end.

Definition high_risk_locations : list string :=
  ["miami"; "los angeles"; "new york"; "las vegas";
   "houston"; "chicago"; "atlanta"].

Definition medium_risk_locations : list string :=
  ["dallas"; "phoenix"; "san francisco"; "seattle"].

Definition check_location_risk (location : string) : gmap string value :=
  let location_lower := str_lower location in
  let '(risk_level, risk_score) :=
    if any_in high_risk_locations location_lower then ("HIGH", 20)
    else if any_in medium_risk_locations location_lower then ("MEDIUM", 10)
    else ("LOW", 5) in
  <["check" := VStr "location_check"]>
    (<["location" := VStr location]>
       (<["risk_level" := VStr risk_level]>
          (<["risk_score" := VInt risk_score]>
             (<["message" :=
                  VStr ("Location '" +:+ location +:+ "' classified as "
                        +:+ risk_level +:+ " risk")]> ∅)))).

Definition calculate_fraud_score (amount_score vendor_score location_score : Z)
  : gmap string value :=
  let total_score := amount_score + vendor_score + location_score in
  let total_score := Z.min total_score 100 in
  let '(verdict, action, is_fraud) :=
    if 65 <=? total_score
    then ("🚨 FRAUDULENT",
          "BLOCK transaction immediately and alert the cardholder", true)
    else if 40 <=? total_score
    then ("⚠️  SUSPICIOUS",
          "Flag for manual review — request additional verification", false)
    else ("✅ LEGITIMATE", "Approve transaction", false) in
  <["check" := VStr "fraud_score"]>
    (<["total_score" := VInt total_score]>
       (<["verdict" := VStr verdict]>
          (<["is_fraud" := VBool is_fraud]>
             (<["recommended_action" := VStr action]>
                (<["breakdown" :=
                     VDict (<["amount_contribution" := VInt amount_score]>
                              (<["vendor_contribution" := VInt vendor_score]>
                                 (<["location_contribution" :=
                                      VInt location_score]> ∅)))]> ∅))))).

(** What the analysis of one transaction leans on: the agent factory
    [create_fraud_agent] (an agent, or the exception of its set-up), where
    an agent answers a prompt with [str(agent(prompt)).strip()] (the
    stripped text, or the exception of the run); the prompt built from
    the transaction (an f-string with number formatting, which can
    raise); and [json.loads] (a value, or [JSONDecodeError]). *)
Record AgentRun : Type := {
  create_fraud_agent : result (string -> result string);
  prompt_of : gmap string value -> result string;
  json_loads : string -> result value
}.

(** The text from the first opening brace on. *)
Fixpoint from_first_brace (text : string) : option string :=
  match text with
  | EmptyString => None
  | String c rest =>
      if Ascii.eqb c "{" then Some text else from_first_brace rest
  end.

(** The longest prefix that ends with a closing brace. *)
Fixpoint upto_last_brace (text : string) : option string :=
  match text with
  | EmptyString => None
  | String c rest =>
      match upto_last_brace rest with
      | Some block => Some (String c block)
      | None => if Ascii.eqb c "}" then Some (String c EmptyString) else None
      end
  end.

(** [re.search(r'\{.*\}', text, re.DOTALL)]: the leftmost match, as long
    as it can be; [match.group()] of it. *)
Definition search_json_block (text : string) : option string :=
  match from_first_brace text with
  | Some tail => upto_last_brace tail
  | None => None
  end.

Definition analyze_transaction (R : AgentRun)
    (transaction : gmap string value) : result value :=
  match create_fraud_agent R with
  | Raise e => Raise e
  | Ok agent =>
  match prompt_of R transaction with
  | Raise e => Raise e
  | Ok prompt =>
  match agent prompt with
  | Raise e => Raise e
  | Ok raw_response =>
      match json_loads R raw_response with
      | Ok response => Ok response
      | Raise _ =>
          match search_json_block raw_response with
          | Some block => json_loads R block
          | None => Ok (VDict (<["raw" := VStr raw_response]> ∅))
          end
      end
  end end end.


End Tools.

(** ** The operator's script: [callback_id.py] *)

Module CallbackScript.

(** The Lambda client: [client.invoke(FunctionName, InvocationType,
    Payload)] answers with a status code or raises. *)
Record LambdaClient : Type := {
  invoke : string -> string -> value -> result Z
}.

Definition function_arn : string :=
  "arn:aws:lambda:us-east-1:154395736719:function:fn-Fraud-Detection:$LATEST".

(** The payload of the callback, before [json.dumps]. *)
Definition payload (callback_id : string) : gmap string value :=
  <["callbackId" := VStr callback_id]> (<["result" := VStr "approved"]> ∅).

(** How the script ends: [exit(code)], the end of the file, or an
    uncaught exception. *)
Inductive ending : Type :=
| Exit (code : Z)
| Completed
| Uncaught (e : exception).

Definition decimal (n : Z) : string :=
  DecimalString.NilZero.string_of_int (Z.to_int n).

(** The script on the line the operator typed: the lines it prints (the
    prompt of [input] aside) and the ending.  [strip] is [str.strip];
    the client stands for [boto3.client("lambda", ...)] and its
    [invoke]. *)
Definition main (strip : string -> string) (client : LambdaClient)
    (typed : string) : list string * ending :=
  let callback_id := strip typed in
  if String.eqb callback_id ""
  then (["Error: callbackId cannot be empty."], Exit 1)
  else
    match invoke client function_arn "Event" (VDict (payload callback_id)) with
    | Raise e => ([], Uncaught e)
    | Ok status =>
        if status =? 202
        then (["Callback sent successfully (HTTP " +:+ decimal status +:+ ")"],
              Completed)
        else (["Unexpected response status: " +:+ decimal status], Completed)
    end.

End CallbackScript.

(** ** More observations *)

Module Observe2.

(** The names of the steps whose body a trace runs, in order. *)
Fixpoint started_names (t : list op) : list string :=
  match t with
  | [] => []
  | StepStarted name _ :: rest => name :: started_names rest
  | _ :: rest => started_names rest
  end.

(** The notification steps. *)
Definition notification_op (o : op) : bool :=
  step_op "SendVerificationEmail" o || step_op "SendVerificationSMS" o.

(** No byte of the text is the given character. *)
Fixpoint free_of (c : ascii) (text : string) : bool :=
  match text with
  | EmptyString => true
  | String c' rest => negb (Ascii.eqb c' c) && free_of c rest
  end.

(** The score a tool reports, as the agent hands it on. *)
Definition score_of (answer : gmap string value) : Z :=
  match answer !! "risk_score" with
  | Some (VInt z) => z
  | _ => 0
  end.

(** The rank of the verdict in an answer of [calculate_fraud_score]:
    0 legitimate, 1 suspicious, 2 fraudulent. *)
Definition verdict_rank (answer : gmap string value) : Z :=
  match answer !! "verdict" with
  | Some (VStr verdict) =>
      if String.eqb verdict "🚨 FRAUDULENT" then 2
      else if String.eqb verdict "⚠️  SUSPICIOUS" then 1
      else 0
  | _ => 0
  end.


(** The text does not stop inside one of the two characters that
    [str_lower] rewrites: its last bytes are not C4, E2 or E2 84.  Every
    well-formed text is like that. *)
Fixpoint complete (s : string) : bool :=
  match s with
  | EmptyString => true
  | String c1 t1 =>
      match t1 with
      | EmptyString => negb (Tools.is_byte 196 c1 || Tools.is_byte 226 c1)
      | String c2 t2 =>
          match t2 with
          | EmptyString =>
              negb (Tools.is_byte 226 c1 && Tools.is_byte 132 c2)
              && complete t1
          | String _ _ => complete t1
          end
      end
  end.

(** The two verification channels: the notification step of each and the
    line that step logs when its body runs. *)
Inductive Channel : Type := Email | Sms.

Definition notification_of (c : Channel) : string :=
  match c with
  | Email => "SendVerificationEmail"
  | Sms => "SendVerificationSMS"
  end.

Definition sent_line (c : Channel) : string :=
  match c with
  | Email => "Email notification sent with callbackId: {}"
  | Sms => "SMS notification sent with callbackId: {}"
  end.

Definition notification_sent (c : Channel) (o : op) : bool :=
  match o with
  | LogInfo msg _ => String.eqb msg (sent_line c)
  | _ => false
  end.

(** A computation that keeps a property [P] of the ledger and only adds
    calls that satisfy [Q]. *)
Definition preserves (P : gmap string value -> Prop) (Q : list op -> Prop)
    {A} (m : M A) : Prop :=
  forall ctx,
    P (ledger ctx) ->
    P (ledger (snd (m ctx)))
    /\ exists t, trace (snd (m ctx)) = (trace ctx ++ t)%list /\ Q t.

End Observe2.
Export Observe2.

(** ** More concrete runs *)

Module Samples.
Import Scenarios Tools.

(** Transactions that arrive with a score that is a word, and with a
    score of 0.0. *)
Definition worded : gmap string value := <["score" := VStr "high"]> coffee.
Definition zero_scored : gmap string value :=
  <["score" := VFloat (S754_zero false)]> coffee.





End Samples.

(** * Properties *)

(** ** Computations that only write to the trace *)

Section Writer.
Context {A B : Type}.

Lemma writer_ret (a : A) : writer (ret a).
Proof. intros [L T]. unfold ret, extend; cbn. by rewrite app_nil_r. Qed.

Lemma writer_raise e : writer (@raise A e).
Proof. intros [L T]. unfold raise, extend; cbn. by rewrite app_nil_r. Qed.

Lemma writer_lift (r : result A) : writer (lift r).
Proof. intros [L T]. unfold lift, extend; cbn. by rewrite app_nil_r. Qed.

Lemma writer_bind (m : M A) (k : A -> M B) :
  writer m -> (forall a, writer (k a)) -> writer (bind m k).
Proof.
  intros Hm Hk ctx. unfold bind.
  pose proof (Hm ctx) as Hc. pose proof (Hm fresh) as Hf.
  destruct (m fresh) as [r0 c0] eqn:Hmf; cbn [fst snd] in *.
  rewrite Hc. destruct r0 as [a|e]; [|reflexivity].
  injection Hf as ->.
  rewrite (Hk a (extend ctx _)), (Hk a (extend fresh _)).
  unfold extend; cbn. by rewrite app_assoc.
Qed.
End Writer.

Lemma writer_emit o : writer (emit o).
Proof. by intros [L T]. Qed.

Lemma writer_logger_info msg args : writer (logger_info msg args).
Proof. apply writer_emit. Qed.

Create HintDb writer.
#[local] Hint Resolve writer_ret writer_raise writer_lift writer_emit
  writer_logger_info : writer.

Ltac writer_step :=
  first
    [ apply writer_bind; [|intros ?]
    | progress eauto with writer
    | match goal with
      | |- writer (if ?b then _ else _) => destruct b
      | |- writer (match ?x with _ => _ end) => destruct x
      end ].

Lemma check_fraud_score_writer E a l v s :
  writer (check_fraud_score E a l v s).
Proof. unfold check_fraud_score. repeat writer_step. Qed.

(** The body of [fraudCheck] behaves the same on every context. *)
Lemma check_fraud_score_run E a l v s ctx :
  check_fraud_score E a l v s ctx
  = (scoring E a l v s, extend ctx (scoring_ops E a l v s)).
Proof. apply check_fraud_score_writer. Qed.

(** ** Dictionary and comparison facts *)

Lemma getitem_Some (m : gmap string value) k x :
  m !! k = Some x -> getitem m k = Ok x.
Proof. unfold getitem. by intros ->. Qed.

Lemma getitem_None (m : gmap string value) k :
  m !! k = None -> getitem m k = Raise (KeyError k).
Proof. unfold getitem. by intros ->. Qed.

Lemma lt_int_VInt z k : lt_int (VInt z) k = Ok (bool_decide (z < k)).
Proof.
  unfold lt_int; cbn.
  destruct (Z.compare_spec z k); case_bool_decide; first [done | lia].
Qed.

Lemma ge_int_VInt z k : ge_int (VInt z) k = Ok (bool_decide (k <= z)).
Proof.
  unfold ge_int; cbn.
  destruct (Z.compare_spec z k); case_bool_decide; first [done | lia].
Qed.

Lemma int_lt_VInt k z : int_lt k (VInt z) = Ok (bool_decide (k < z)).
Proof.
  unfold int_lt; cbn.
  destruct (Z.compare_spec z k); case_bool_decide; first [done | lia].
Qed.

(** Whether a value can be ordered against an integer does not depend on
    the integer. *)
Lemma cmp_int_Some v k k' : is_Some (cmp_int v k) -> is_Some (cmp_int v k').
Proof. destruct v; cbn; eauto; by intros [? [=]]. Qed.

(** ** Running handler code

    [runs m ctx r ctx'] is derived by rules that follow the structure of
    [m]; [exec] applies them. *)

Section Runs.
Context {A B : Type}.

Lemma runs_ret (a : A) ctx : runs (ret a) ctx (Ok a) ctx.
Proof. reflexivity. Qed.

Lemma runs_raise e ctx : runs (@raise A e) ctx (Raise e) ctx.
Proof. reflexivity. Qed.

Lemma runs_lift (r : result A) ctx : runs (lift r) ctx r ctx.
Proof. reflexivity. Qed.

Lemma runs_lift_eq (r r' : result A) ctx : r = r' -> runs (lift r) ctx r' ctx.
Proof. by intros ->. Qed.

Lemma runs_bind (m : M A) (k : A -> M B) ctx a ctx1 r ctx2 :
  runs m ctx (Ok a) ctx1 -> runs (k a) ctx1 r ctx2 ->
  runs (bind m k) ctx r ctx2.
Proof. unfold runs, bind. by intros ->. Qed.

Lemma runs_bind_raise (m : M A) (k : A -> M B) ctx e ctx1 :
  runs m ctx (Raise e) ctx1 -> runs (bind m k) ctx (Raise e) ctx1.
Proof. unfold runs, bind. by intros ->. Qed.

Lemma runs_try (m : M A) h ctx a ctx1 :
  runs m ctx (Ok a) ctx1 -> runs (try_except m h) ctx (Ok a) ctx1.
Proof. unfold runs, try_except. by intros ->. Qed.

Lemma runs_except (m : M A) h ctx e ctx1 r ctx2 :
  runs m ctx (Raise e) ctx1 -> runs (h e) ctx1 r ctx2 ->
  runs (try_except m h) ctx r ctx2.
Proof. unfold runs, try_except. by intros ->. Qed.

Lemma runs_eq (m : M A) ctx r ctx1 r' ctx2 :
  runs m ctx r ctx1 -> (r, ctx1) = (r', ctx2) -> m ctx = (r', ctx2).
Proof. unfold runs. by intros -> ->. Qed.
End Runs.

Lemma runs_emit o ctx : runs (emit o) ctx (Ok tt) (record o ctx).
Proof. reflexivity. Qed.

Lemma runs_logger_info msg args ctx :
  runs (logger_info msg args) ctx (Ok tt) (record (LogInfo msg args) ctx).
Proof. reflexivity. Qed.

Lemma runs_step_replay body name config ctx x :
  ledger ctx !! name = Some x ->
  runs (step body name config) ctx (Ok x) (record (StepReplayed name) ctx).
Proof. unfold runs, step. by intros ->. Qed.

Lemma runs_step body name config ctx x ctx1 :
  ledger ctx !! name = None ->
  runs body (record (StepStarted name config) ctx) (Ok x) ctx1 ->
  runs (step body name config) ctx (Ok x)
    {| ledger := <[name := x]> (ledger ctx1); trace := trace ctx1 |}.
Proof. unfold runs, step. by intros -> ->. Qed.

Lemma runs_step_raise body name config ctx e ctx1 :
  ledger ctx !! name = None ->
  runs body (record (StepStarted name config) ctx) (Raise e) ctx1 ->
  runs (step body name config) ctx (Raise e) ctx1.
Proof. unfold runs, step. by intros -> ->. Qed.

Lemma runs_collect branch ctx r ctx1 :
  runs branch ctx r ctx1 -> runs (collect branch) ctx (Ok r) ctx1.
Proof. unfold runs, collect. by intros ->. Qed.

Lemma runs_check_fraud_score E a l v s ctx r :
  scoring E a l v s = r ->
  runs (check_fraud_score E a l v s) ctx r
    (extend ctx (scoring_ops E a l v s)).
Proof. intros <-. apply check_fraud_score_run. Qed.

Ltac exec_with known :=
  lazymatch goal with
  | |- runs (bind _ _) _ _ _ =>
      first [ eapply runs_bind;
              [exec_with known | cbv beta iota zeta; exec_with known]
            | eapply runs_bind_raise; exec_with known ]
  | |- runs (lift _) _ _ _ =>
      first [ eapply runs_lift_eq;
              solve [eassumption | apply getitem_Some; eassumption]
            | apply runs_lift ]
  | |- runs (ret _) _ _ _ => apply runs_ret
  | |- runs (raise _) _ _ _ => apply runs_raise
  | |- runs (emit _) _ _ _ => apply runs_emit
  | |- runs (logger_info _ _) _ _ _ => apply runs_logger_info
  | |- runs (check_fraud_score _ _ _ _ _) _ _ _ =>
      apply runs_check_fraud_score; eassumption
  | |- runs (step _ _ _) _ _ _ =>
      first [ eapply runs_step_replay; first [eassumption | reflexivity]
            | eapply runs_step;
              [first [eassumption | reflexivity] | exec_with known]
            | eapply runs_step_raise;
              [first [eassumption | reflexivity] | exec_with known] ]
  | |- runs (collect _) _ _ _ => eapply runs_collect; exec_with known
  | |- runs (try_except _ _) _ _ _ =>
      first [ eapply runs_try; exec_with known
            | eapply runs_except;
              [exec_with known | cbv beta iota zeta; exec_with known] ]
  | |- runs (authorize_transaction _ _) _ _ _ =>
      unfold authorize_transaction; exec_with known
  | |- runs (send_to_fraud _ _) _ _ _ =>
      unfold send_to_fraud; exec_with known
  | |- runs (suspend_transaction _) _ _ _ =>
      unfold suspend_transaction; exec_with known
  | |- runs (send_email_notification _ _) _ _ _ =>
      unfold send_email_notification; exec_with known
  | |- runs (send_sms_notification _ _) _ _ _ =>
      unfold send_sms_notification; exec_with known
  | |- runs (wait_for_callback _ _ _ _) _ _ _ =>
      unfold wait_for_callback; exec_with known
  | |- runs (parallel _ _ _ _) _ _ _ => unfold parallel; exec_with known
  | |- runs (run_branches _ _ _) _ _ _ =>
      cbn [run_branches]; exec_with known
  | |- runs (if ?b then _ else _) _ _ _ =>
      match goal with H : b = _ |- _ => rewrite H end; exec_with known
  | |- _ => known
  end.

(** Runs code built from the primitives alone. *)
Ltac exec0 := exec_with ltac:(fail).

Ltac finish :=
  unfold record, extend, fresh; cbn [ledger trace];
  rewrite <- ?app_assoc; reflexivity.

Lemma runs_advance_transaction tx i a s batch ctx :
  tx !! "id" = Some i -> tx !! "amount" = Some a -> tx !! "score" = Some s ->
  runs (advance_transaction tx batch) ctx (Ok (decision i a s batch))
    (record (decision_log batch) ctx).
Proof.
  intros Hi Ha Hs.
  unfold advance_transaction, decision, decision_log, _authorize_logic,
    _fraud_logic, getitem.
  rewrite Hi, Ha, Hs. by destruct (0 <? success_count batch).
Qed.

Section Branches.
Context (E : Environment) (tx : gmap string value) (ctx : DurableContext).

Lemma runs_email_verification :
  ledger ctx !! "SendVerificationEmail" = None ->
  runs (email_verification E tx) ctx
    (branch_result "email" (callback_outcome E "emailVerification"))
    {| ledger := <["SendVerificationEmail" := VNone]> (ledger ctx);
       trace :=
         trace ctx
         ++ [WaitForCallback "emailVerification" verification_wait;
             StepStarted "SendVerificationEmail" notification_step;
             LogInfo "Email notification sent with callbackId: {}"
               [VStr (new_callback_id E "emailVerification")]]
         ++ branch_log "Email verification timed out: {}"
              (callback_outcome E "emailVerification") |}.
Proof.
  intros Hn. unfold email_verification, branch_result, branch_log,
    mentions_timeout.
  destruct (callback_outcome E "emailVerification") as [p|e] eqn:Ho;
    [|destruct (contains "timeout" (lower (exc_str e))) eqn:Ht];
    (eapply runs_eq; [exec0|finish]).
Qed.

Lemma runs_email_verification_replay x :
  ledger ctx !! "SendVerificationEmail" = Some x ->
  runs (email_verification E tx) ctx
    (branch_result "email" (callback_outcome E "emailVerification"))
    {| ledger := ledger ctx;
       trace :=
         trace ctx
         ++ [WaitForCallback "emailVerification" verification_wait;
             StepReplayed "SendVerificationEmail"]
         ++ branch_log "Email verification timed out: {}"
              (callback_outcome E "emailVerification") |}.
Proof.
  intros Hn. unfold email_verification, branch_result, branch_log,
    mentions_timeout.
  destruct (callback_outcome E "emailVerification") as [p|e] eqn:Ho;
    [|destruct (contains "timeout" (lower (exc_str e))) eqn:Ht];
    (eapply runs_eq; [exec0|finish]).
Qed.

Lemma runs_sms_verification :
  ledger ctx !! "SendVerificationSMS" = None ->
  runs (sms_verification E tx) ctx
    (branch_result "sms" (callback_outcome E "smsVerification"))
    {| ledger := <["SendVerificationSMS" := VNone]> (ledger ctx);
       trace :=
         trace ctx
         ++ [WaitForCallback "smsVerification" verification_wait;
             StepStarted "SendVerificationSMS" notification_step;
             LogInfo "SMS notification sent with callbackId: {}"
               [VStr (new_callback_id E "smsVerification")]]
         ++ branch_log "SMS verification timed out: {}"
              (callback_outcome E "smsVerification") |}.
Proof.
  intros Hn. unfold sms_verification, branch_result, branch_log,
    mentions_timeout.
  destruct (callback_outcome E "smsVerification") as [p|e] eqn:Ho;
    [|destruct (contains "timeout" (lower (exc_str e))) eqn:Ht];
    (eapply runs_eq; [exec0|finish]).
Qed.

Lemma runs_sms_verification_replay x :
  ledger ctx !! "SendVerificationSMS" = Some x ->
  runs (sms_verification E tx) ctx
    (branch_result "sms" (callback_outcome E "smsVerification"))
    {| ledger := ledger ctx;
       trace :=
         trace ctx
         ++ [WaitForCallback "smsVerification" verification_wait;
             StepReplayed "SendVerificationSMS"]
         ++ branch_log "SMS verification timed out: {}"
              (callback_outcome E "smsVerification") |}.
Proof.
  intros Hn. unfold sms_verification, branch_result, branch_log,
    mentions_timeout.
  destruct (callback_outcome E "smsVerification") as [p|e] eqn:Ho;
    [|destruct (contains "timeout" (lower (exc_str e))) eqn:Ht];
    (eapply runs_eq; [exec0|finish]).
Qed.
End Branches.

(** Runs handler code, taking the branches and the final decision from
    the lemmas above. *)
Ltac exec :=
  exec_with
    ltac:(idtac;
          lazymatch goal with
          | |- runs (email_verification _ _) _ _ _ =>
              first [ eapply runs_email_verification;
                      first [eassumption | reflexivity]
                    | eapply runs_email_verification_replay;
                      first [eassumption | reflexivity] ]
          | |- runs (sms_verification _ _) _ _ _ =>
              first [ eapply runs_sms_verification;
                      first [eassumption | reflexivity]
                    | eapply runs_sms_verification_replay;
                      first [eassumption | reflexivity] ]
          | |- runs (advance_transaction _ _) _ _ _ =>
              eapply runs_advance_transaction; reflexivity
          end).

(** Opens [handler] on a transaction event. *)
Ltac enter :=
  unfold handler;
  match goal with H : _ !! "callbackId" = None |- _ => rewrite H end.

Lemma run_callback E event callback_id ctx :
  event !! "callbackId" = Some callback_id ->
  handler E event ctx
  = (Ok (VDict event),
     extend ctx [LogInfo "Callback received for callbackId: {}" [callback_id]]).
Proof. intros Hcb. unfold handler. by rewrite Hcb. Qed.

Lemma run_missing E event key ctx :
  event !! "callbackId" = None ->
  first_missing event = Some key ->
  handler E event ctx = (Raise (KeyError key), ctx).
Proof.
  intros Hcb Hkey. unfold handler. rewrite Hcb. clear Hcb.
  unfold first_missing, required_fields in Hkey. cbn [find] in Hkey.
  repeat
    match type of Hkey with
    | context [bool_decide (event !! ?k = None)] =>
        let H := fresh "Hk" in
        destruct (event !! k) eqn:H;
        [ rewrite (getitem_Some _ _ _ H),
            (bool_decide_eq_false_2 (Some _ = None)) in * by done
        | rewrite (getitem_None _ _ H),
            (bool_decide_eq_true_2 (None = None)) in * by done;
          by injection Hkey as <- ]
    end.
  done.
Qed.

Lemma first_missing_None event :
  first_missing event = None ->
  exists i a l v,
    event !! "id" = Some i /\ event !! "amount" = Some a
    /\ event !! "location" = Some l /\ event !! "vendor" = Some v.
Proof.
  unfold first_missing, required_fields. cbn [find].
  destruct (event !! "id") as [i|]; [|done].
  destruct (event !! "amount") as [a|]; [|done].
  destruct (event !! "location") as [l|]; [|done].
  destruct (event !! "vendor") as [v|]; [|done].
  intros _. by exists i, a, l, v.
Qed.

Section Run.
Context (E : Environment) (event : gmap string value) (i a l v : value).
Hypothesis Hcb : event !! "callbackId" = None.
Hypothesis Hi : event !! "id" = Some i.
Hypothesis Ha : event !! "amount" = Some a.
Hypothesis Hl : event !! "location" = Some l.
Hypothesis Hv : event !! "vendor" = Some v.

Lemma run_scoring_fails e :
  scoring E a l v (get event "score" (VInt 0)) = Raise e ->
  handler E event fresh
  = (Raise e,
     {| ledger := ∅;
        trace :=
          StepStarted "fraudCheck" None
          :: scoring_ops E a l v (get event "score" (VInt 0)) |}).
Proof.
  intros Hs. enter. eapply runs_eq; [exec|finish].
Qed.

Lemma run_low s :
  scoring E a l v (get event "score" (VInt 0)) = Ok s ->
  lt_int s 3 = Ok true ->
  handler E event fresh
  = (Ok (response 200 i a s "authorized" None),
     {| ledger :=
          <["Authorize" := response 200 i a s "authorized" None]>
            (<["fraudCheck" := s]> ∅);
        trace :=
          StepStarted "fraudCheck" None
          :: scoring_ops E a l v (get event "score" (VInt 0))
          ++ [LogInfo "Transaction Score = {}" [s];
              StepStarted "Authorize" None;
              LogInfo "Authorizing transactionId: {}" [i]] |}).
Proof.
  intros Hs Hlt. enter. eapply runs_eq; [exec|finish].
Qed.

Lemma run_unorderable s e :
  scoring E a l v (get event "score" (VInt 0)) = Ok s ->
  lt_int s 3 = Raise e ->
  handler E event fresh
  = (Raise e,
     {| ledger := <["fraudCheck" := s]> ∅;
        trace :=
          StepStarted "fraudCheck" None
          :: scoring_ops E a l v (get event "score" (VInt 0))
          ++ [LogInfo "Transaction Score = {}" [s]] |}).
Proof.
  intros Hs Hlt. enter. eapply runs_eq; [exec|finish].
Qed.

Lemma run_high s :
  scoring E a l v (get event "score" (VInt 0)) = Ok s ->
  lt_int s 3 = Ok false ->
  ge_int s 5 = Ok true ->
  handler E event fresh
  = (Ok (response 200 i a s "SentToFraudDept" None),
     {| ledger :=
          <["sendToFraud" := response 200 i a s "SentToFraudDept" None]>
            (<["fraudCheck" := s]> ∅);
        trace :=
          StepStarted "fraudCheck" None
          :: scoring_ops E a l v (get event "score" (VInt 0))
          ++ [LogInfo "Transaction Score = {}" [s];
              StepStarted "sendToFraud" None;
              LogInfo "Escalating to fraud department - transactionId: {}"
                [i]] |}).
Proof.
  intros Hs Hlt Hge. enter. eapply runs_eq; [exec|finish].
Qed.

(** Neither low, nor high, nor medium: a score that is a number but is
    not ordered against 3 and 5, such as a NaN. *)
Lemma run_unknown s :
  scoring E a l v (get event "score" (VInt 0)) = Ok s ->
  lt_int s 3 = Ok false ->
  ge_int s 5 = Ok false ->
  int_lt 2 s = Ok false \/ (int_lt 2 s = Ok true /\ lt_int s 5 = Ok false) ->
  handler E event fresh
  = (Ok (response 400 i a s "Unknown" None),
     {| ledger := <["fraudCheck" := s]> ∅;
        trace :=
          StepStarted "fraudCheck" None
          :: scoring_ops E a l v (get event "score" (VInt 0))
          ++ [LogInfo "Transaction Score = {}" [s]] |}).
Proof.
  intros Hs Hlt Hge [Hab|[Hab Hlt5]]; enter;
    (eapply runs_eq; [exec|finish]).
Qed.

Lemma run_medium s :
  scoring E a l v (get event "score" (VInt 0)) = Ok s ->
  lt_int s 3 = Ok false ->
  ge_int s 5 = Ok false ->
  int_lt 2 s = Ok true ->
  lt_int s 5 = Ok true ->
  handler E event fresh
  = (Ok (decision i a s (verified E)),
     {| ledger :=
          <["advanceTransaction" := decision i a s (verified E)]>
            (<["SendVerificationSMS" := VNone]>
               (<["SendVerificationEmail" := VNone]>
                  (<["suspendTransaction" := VBool true]>
                     (<["fraudCheck" := s]> ∅))));
        trace :=
          StepStarted "fraudCheck" None
          :: scoring_ops E a l v (get event "score" (VInt 0))
          ++ [LogInfo "Transaction Score = {}" [s];
              StepStarted "suspendTransaction" None;
              LogInfo "Suspending transactionId: {}" [i];
              ParallelStarted "human-verification" human_verification 2]
          ++ email_ops E ++ sms_ops E
          ++ [StepStarted "advanceTransaction" None;
              decision_log (verified E)] |}).
Proof.
  intros Hs Hlt Hge Hab Hlt5. enter.
  eapply runs_eq; [exec|].
  unfold verified, email_ops, sms_ops. finish.
Qed.
End Run.

(** ** Replaying a finished medium-risk run *)

Section Replay.
Context (E : Environment) (event : gmap string value) (i a l v : value).
Context (ctx : DurableContext) (s x0 x1 x2 r : value).
Hypothesis Hcb : event !! "callbackId" = None.
Hypothesis Hi : event !! "id" = Some i.
Hypothesis Ha : event !! "amount" = Some a.
Hypothesis Hl : event !! "location" = Some l.
Hypothesis Hv : event !! "vendor" = Some v.
Hypothesis Hscore : ledger ctx !! "fraudCheck" = Some s.
Hypothesis Hsuspend : ledger ctx !! "suspendTransaction" = Some x0.
Hypothesis Hemail : ledger ctx !! "SendVerificationEmail" = Some x1.
Hypothesis Hsms : ledger ctx !! "SendVerificationSMS" = Some x2.
Hypothesis Hadvance : ledger ctx !! "advanceTransaction" = Some r.
Hypothesis Hlt : lt_int s 3 = Ok false.
Hypothesis Hge : ge_int s 5 = Ok false.
Hypothesis Hab : int_lt 2 s = Ok true.
Hypothesis Hlt5 : lt_int s 5 = Ok true.

Lemma replay_medium :
  handler E event ctx
  = (Ok r,
     {| ledger := ledger ctx;
        trace :=
          trace ctx
          ++ [StepReplayed "fraudCheck";
              LogInfo "Transaction Score = {}" [s];
              StepReplayed "suspendTransaction";
              ParallelStarted "human-verification" human_verification 2;
              BranchStarted "human-verification" 0;
              WaitForCallback "emailVerification" verification_wait;
              StepReplayed "SendVerificationEmail"]
          ++ branch_log "Email verification timed out: {}"
               (callback_outcome E "emailVerification")
          ++ [BranchStarted "human-verification" 1;
              WaitForCallback "smsVerification" verification_wait;
              StepReplayed "SendVerificationSMS"]
          ++ branch_log "SMS verification timed out: {}"
               (callback_outcome E "smsVerification")
          ++ [StepReplayed "advanceTransaction"] |}).
Proof. enter. eapply runs_eq; [exec|finish]. Qed.
End Replay.

(** ** What a scoring does *)

Lemma filter_none {A} (f : A -> bool) (l : list A) :
  Forall (fun x => f x = false) l -> List.filter f l = [].
Proof.
  induction 1 as [|x l Hx _ IH]; [done|]. cbn. by rewrite Hx.
Qed.

(** A supplied score is returned as it is, without a call. *)
Lemma scoring_supplied E a l v s :
  ne_int s 0 = true ->
  scoring E a l v s = Ok s /\ scoring_ops E a l v s = [].
Proof.
  intros Hne. unfold scoring, scoring_ops, check_fraud_score.
  by rewrite Hne.
Qed.


Section Scorer.
Context (E : Environment) (a l v s : value) (arn : string).
Hypothesis Hne : ne_int s 0 = false.
Hypothesis Harn : arn_of E = Some arn.



Lemma scoring_reply reply output risk :
  invoke_agent_runtime E arn (scorer_payload a l v) = Ok (VDict reply) ->
  reply !! "output" = Some (VDict output) ->
  output !! "risk_score" = Some risk ->
  is_none risk = false ->
  scoring E a l v s = Ok risk.
Proof.
  intros Hr Ho Hk Hn. unfold scoring, check_fraud_score.
  rewrite Hne. cbv [bind logger_info emit lift fst]. rewrite Harn.
  fold (scorer_payload a l v). rewrite Hr.
  unfold obj_get, obj_getitem, get, getitem. rewrite Ho. cbv beta iota.
  rewrite Hk. cbv beta iota. by rewrite Hn.
Qed.
End Scorer.

(** A scoring only logs and calls the scorer. *)
Lemma scoring_ops_spec E a l v s :
  Forall (fun o => scoring_op o = true) (scoring_ops E a l v s).
Proof.
  unfold scoring_ops, check_fraud_score.
  destruct (ne_int s 0); [constructor|].
  cbv [bind logger_info emit lift ret raise fst snd].
  destruct (arn_of E) as [arn|]; [|by repeat constructor].
  destruct (invoke_agent_runtime E arn _) as [reply|e];
    [|by repeat constructor].
  destruct (obj_get reply "output" (VDict ∅)) as [output|e];
    [|by repeat constructor].
  destruct (obj_get output "risk_score" VNone) as [risk|e];
    [|by repeat constructor].
  destruct (negb (is_none risk)); [|by repeat constructor].
  destruct (obj_getitem reply "output") as [output'|e];
    [|by repeat constructor].
  by repeat constructor.
Qed.

Lemma filter_scoring_ops (f : op -> bool) E a l v s :
  (forall o, scoring_op o = true -> f o = false) ->
  List.filter f (scoring_ops E a l v s) = [].
Proof.
  intros Hf. apply filter_none.
  eapply Forall_impl; [apply scoring_ops_spec|]. exact Hf.
Qed.

(** ** Every score takes one way through the handler *)

Lemma route_cases s :
  lt_int s 3 = Ok true
  \/ (exists e, lt_int s 3 = Raise e)
  \/ (lt_int s 3 = Ok false /\ ge_int s 5 = Ok true)
  \/ (lt_int s 3 = Ok false /\ ge_int s 5 = Ok false
      /\ int_lt 2 s = Ok true /\ lt_int s 5 = Ok true)
  \/ (lt_int s 3 = Ok false /\ ge_int s 5 = Ok false
      /\ (int_lt 2 s = Ok false
          \/ (int_lt 2 s = Ok true /\ lt_int s 5 = Ok false))).
Proof.
  unfold lt_int, ge_int, int_lt.
  destruct (cmp_int s 3) as [o3|] eqn:H3.
  - destruct (cmp_int_Some s 3 5) as [o5 ->]; [by eauto|].
    destruct (cmp_int_Some s 3 2) as [o2 ->]; [by eauto|].
    destruct o3 as [[]|], o5 as [[]|], o2 as [[]|]; eauto 10.
  - eauto.
Qed.

Lemma handler_records_score E event i a l v s :
  event !! "callbackId" = None ->
  event !! "id" = Some i -> event !! "amount" = Some a ->
  event !! "location" = Some l -> event !! "vendor" = Some v ->
  scoring E a l v (get event "score" (VInt 0)) = Ok s ->
  scored_value E event = Some s.
Proof.
  intros Hcb Hi Ha Hl Hv Hs. unfold scored_value.
  destruct (route_cases s)
    as [Hlow|[[e He]|[[H3 H5]|[(H3 & H5 & H2 & H5')|(H3 & H5 & H2)]]]].
  - by erewrite run_low.
  - by erewrite run_unorderable.
  - by erewrite run_high.
  - by erewrite run_medium.
  - by erewrite run_unknown.
Qed.

Lemma scored_value_inv E event s :
  scored_value E event = Some s ->
  event !! "callbackId" = None
  /\ exists i a l v,
      event !! "id" = Some i /\ event !! "amount" = Some a
      /\ event !! "location" = Some l /\ event !! "vendor" = Some v
      /\ scoring E a l v (get event "score" (VInt 0)) = Ok s.
Proof.
  intros Hsv.
  destruct (event !! "callbackId") as [cb|] eqn:Hcb.
  { unfold scored_value in Hsv. by erewrite run_callback in Hsv. }
  split; [done|].
  destruct (first_missing event) as [key|] eqn:Hm.
  { unfold scored_value in Hsv. by erewrite run_missing in Hsv. }
  destruct (first_missing_None _ Hm) as (i & a & l & v & Hi & Ha & Hl & Hv).
  exists i, a, l, v. repeat split; try done.
  destruct (scoring E a l v (get event "score" (VInt 0))) as [s'|e] eqn:Hs.
  - erewrite handler_records_score in Hsv by done. congruence.
  - unfold scored_value in Hsv. by erewrite run_scoring_fails in Hsv.
Qed.

(** ** Counting calls in a trace *)

Lemma filter_branch_log (f : op -> bool) msg outcome :
  (forall m args, f (LogInfo m args) = false) ->
  List.filter f (branch_log msg outcome) = [].
Proof.
  intros Hf. unfold branch_log.
  destruct outcome as [|e]; [done|].
  destruct (mentions_timeout e); [|done]. cbn. by rewrite Hf.
Qed.

Lemma decision_log_is_log batch :
  exists m, decision_log batch = LogInfo m [].
Proof. unfold decision_log. destruct (0 <? success_count batch); eauto. Qed.

(** Filters a trace whose shape is known, for a filter that keeps no log
    line and no scorer call. *)
Ltac count_ops :=
  unfold email_ops, sms_ops; cbn [trace];
  repeat first
    [ rewrite List.filter_app
    | rewrite filter_scoring_ops by (by intros []; cbn)
    | rewrite filter_branch_log by done
    | progress cbn -[scoring_ops branch_log decision_log] ];
  try reflexivity.

(** ** The claims *)

Import Scenarios.

(** C9: an event that carries a "callbackId" key is returned unchanged;
    the handler only writes one log line: no field of a transaction is
    read, the environment is not consulted, no step runs, no fan-out
    starts and the ledger stays as it was. *)
Theorem callback_event_returned E event ctx :
  is_Some (event !! "callbackId") ->
  exists callback_id,
    event !! "callbackId" = Some callback_id
    /\ handler E event ctx
       = (Ok (VDict event),
          {| ledger := ledger ctx;
             trace :=
               trace ctx
               ++ [LogInfo "Callback received for callbackId: {}"
                     [callback_id]] |}).
Proof.
  intros [callback_id Hcb]. exists callback_id.
  split; [done|]. by apply run_callback.
Qed.

Lemma callback_event_returned_witness :
  exists callback_id,
    callback_event !! "callbackId" = Some callback_id
    /\ handler offline callback_event fresh
       = (Ok (VDict callback_event),
          {| ledger := ledger fresh;
             trace :=
               trace fresh
               ++ [LogInfo "Callback received for callbackId: {}"
                     [callback_id]] |}).
Proof.
  apply (callback_event_returned offline callback_event fresh).
  exists (VStr "cb-1"). reflexivity.
Defined.

(** C1: a transaction whose scored value is an integer below 3 is
    authorized: status 200, result "authorized", the score reported as
    fraud_score; the run starts no fan-out, no branch, no callback wait,
    and never calls the suspend step. *)
Theorem low_score_authorized E event z :
  scored_value E event = Some (VInt z) ->
  z < 3 ->
  exists r ctx,
    handler E event fresh = (Ok r, ctx)
    /\ field r "statusCode" = Some (VInt 200)
    /\ body_field r "result" = Some (VStr "authorized")
    /\ body_field r "fraud_score" = Some (VInt z)
    /\ List.filter parallel_op (trace ctx) = []
    /\ List.filter (step_op "suspendTransaction") (trace ctx) = [].
Proof.
  intros Hsv Hz.
  destruct (scored_value_inv _ _ _ Hsv)
    as (Hcb & i & a & l & v & Hi & Ha & Hl & Hv & Hs).
  eexists _, _. split.
  { eapply run_low; try done. rewrite lt_int_VInt.
    by rewrite bool_decide_eq_true_2. }
  repeat split; count_ops.
Qed.

Lemma low_score_authorized_witness :
  exists r ctx,
    handler (scorer 1 (Raise wait_timeout)) coffee fresh = (Ok r, ctx)
    /\ field r "statusCode" = Some (VInt 200)
    /\ body_field r "result" = Some (VStr "authorized")
    /\ body_field r "fraud_score" = Some (VInt 1)
    /\ List.filter parallel_op (trace ctx) = []
    /\ List.filter (step_op "suspendTransaction") (trace ctx) = [].
Proof.
  apply (low_score_authorized (scorer 1 (Raise wait_timeout)) coffee 1).
  - vm_compute. reflexivity.
  - lia.
Defined.

(** C2: a transaction whose scored value is an integer of 5 or more is
    sent to the fraud department: status 200, result "SentToFraudDept";
    the run starts no fan-out, no branch, no callback wait, and never
    calls the suspend step. *)
Theorem high_score_escalated E event z :
  scored_value E event = Some (VInt z) ->
  5 <= z ->
  exists r ctx,
    handler E event fresh = (Ok r, ctx)
    /\ field r "statusCode" = Some (VInt 200)
    /\ body_field r "result" = Some (VStr "SentToFraudDept")
    /\ body_field r "fraud_score" = Some (VInt z)
    /\ List.filter parallel_op (trace ctx) = []
    /\ List.filter (step_op "suspendTransaction") (trace ctx) = [].
Proof.
  intros Hsv Hz.
  destruct (scored_value_inv _ _ _ Hsv)
    as (Hcb & i & a & l & v & Hi & Ha & Hl & Hv & Hs).
  eexists _, _. split.
  { eapply run_high; try done.
    - rewrite lt_int_VInt. rewrite bool_decide_eq_false_2; [done|lia].
    - rewrite ge_int_VInt. by rewrite bool_decide_eq_true_2. }
  repeat split; count_ops.
Qed.

Lemma high_score_escalated_witness :
  exists r ctx,
    handler (scorer 5 (Raise wait_timeout)) electronics fresh = (Ok r, ctx)
    /\ field r "statusCode" = Some (VInt 200)
    /\ body_field r "result" = Some (VStr "SentToFraudDept")
    /\ body_field r "fraud_score" = Some (VInt 5)
    /\ List.filter parallel_op (trace ctx) = []
    /\ List.filter (step_op "suspendTransaction") (trace ctx) = [].
Proof.
  apply (high_score_escalated (scorer 5 (Raise wait_timeout)) electronics 5).
  - vm_compute. reflexivity.
  - lia.
Defined.

(** The comparisons of the handler on an integer score of 3 or 4. *)
Lemma medium_score z :
  z = 3 \/ z = 4 ->
  lt_int (VInt z) 3 = Ok false /\ ge_int (VInt z) 5 = Ok false
  /\ int_lt 2 (VInt z) = Ok true /\ lt_int (VInt z) 5 = Ok true.
Proof. by intros [-> | ->]. Qed.

(** C3: for a scored value of 3 or 4 the run calls the suspend step and
    then starts one fan-out of exactly two branches, email then SMS, each
    registering one callback waiter whose timeout is one day (86400
    seconds); the fan-out runs with max_concurrency 2, min_successful 1
    and tolerated_failure_count 1.  These are all the suspend, fan-out,
    branch and waiter calls of the run, in this order. *)
Theorem medium_score_fans_out E event z :
  scored_value E event = Some (VInt z) ->
  z = 3 \/ z = 4 ->
  exists r ctx,
    handler E event fresh = (Ok r, ctx)
    /\ List.filter
         (fun o => step_op "suspendTransaction" o || parallel_op o)
         (trace ctx)
       = [StepStarted "suspendTransaction" None;
          ParallelStarted "human-verification"
            {| max_concurrency := 2;
               completion_config :=
                 {| min_successful := 1; tolerated_failure_count := 1 |} |}
            2;
          BranchStarted "human-verification" 0;
          WaitForCallback "emailVerification"
            {| timeout := from_days 1;
               callback_retry_strategy := _notification_retry_strategy |};
          BranchStarted "human-verification" 1;
          WaitForCallback "smsVerification"
            {| timeout := from_days 1;
               callback_retry_strategy := _notification_retry_strategy |}]
    /\ total_seconds (from_days 1) = 86400.
Proof.
  intros Hsv Hz.
  destruct (scored_value_inv _ _ _ Hsv)
    as (Hcb & i & a & l & v & Hi & Ha & Hl & Hv & Hs).
  destruct (medium_score z Hz) as (H3 & H5 & H2 & H5').
  eexists _, _. split; [by eapply run_medium|].
  split; [|done].
  destruct (decision_log_is_log (verified E)) as [m ->].
  count_ops.
Qed.

Lemma medium_score_fans_out_witness :
  exists r ctx,
    handler (scorer 4 (Raise wait_timeout)) gaming fresh = (Ok r, ctx)
    /\ List.filter
         (fun o => step_op "suspendTransaction" o || parallel_op o)
         (trace ctx)
       = [StepStarted "suspendTransaction" None;
          ParallelStarted "human-verification"
            {| max_concurrency := 2;
               completion_config :=
                 {| min_successful := 1; tolerated_failure_count := 1 |} |}
            2;
          BranchStarted "human-verification" 0;
          WaitForCallback "emailVerification"
            {| timeout := from_days 1;
               callback_retry_strategy := _notification_retry_strategy |};
          BranchStarted "human-verification" 1;
          WaitForCallback "smsVerification"
            {| timeout := from_days 1;
               callback_retry_strategy := _notification_retry_strategy |}]
    /\ total_seconds (from_days 1) = 86400.
Proof.
  apply (medium_score_fans_out (scorer 4 (Raise wait_timeout)) gaming 4).
  - vm_compute. reflexivity.
  - right. reflexivity.
Defined.

(** C10: with an integer scored value the handler returns through exactly
    one of its three ways: of the steps [Authorize], [sendToFraud] and
    [advanceTransaction] exactly one runs, the first for a score below 3,
    the second for a score of 5 or more, the third for a score between;
    the result has status 200, never the trailing 400 "Unknown". *)
Theorem integer_score_one_path E event z :
  scored_value E event = Some (VInt z) ->
  exists r ctx,
    handler E event fresh = (Ok r, ctx)
    /\ List.filter terminal_step (trace ctx) = [StepStarted (path_of z) None]
    /\ field r "statusCode" = Some (VInt 200)
    /\ body_field r "result" <> Some (VStr "Unknown").
Proof.
  intros Hsv.
  destruct (scored_value_inv _ _ _ Hsv)
    as (Hcb & i & a & l & v & Hi & Ha & Hl & Hv & Hs).
  unfold path_of.
  destruct (Z.ltb_spec z 3) as [Hlow|Hlow];
    [|destruct (Z.leb_spec 5 z) as [Hhigh|Hhigh]].
  - eexists _, _. split.
    { eapply run_low; try done. rewrite lt_int_VInt.
      by rewrite bool_decide_eq_true_2. }
    repeat split; count_ops. done.
  - eexists _, _. split.
    { eapply run_high; try done.
      - rewrite lt_int_VInt. rewrite bool_decide_eq_false_2; [done|lia].
      - rewrite ge_int_VInt. by rewrite bool_decide_eq_true_2. }
    repeat split; count_ops. done.
  - assert (z = 3 \/ z = 4) as Hz by lia.
    destruct (medium_score z Hz) as (H3 & H5 & H2 & H5').
    eexists _, _. split; [by eapply run_medium|].
    unfold decision.
    destruct (decision_log_is_log (verified E)) as [m ->].
    destruct (0 <? success_count (verified E)); repeat split; count_ops; done.
Qed.

Lemma integer_score_one_path_witness :
  exists r ctx,
    handler (scorer 4 (Raise wait_timeout)) gaming fresh = (Ok r, ctx)
    /\ List.filter terminal_step (trace ctx) = [StepStarted (path_of 4) None]
    /\ field r "statusCode" = Some (VInt 200)
    /\ body_field r "result" <> Some (VStr "Unknown").
Proof.
  apply (integer_score_one_path (scorer 4 (Raise wait_timeout)) gaming 4).
  vm_compute. reflexivity.
Defined.

(** C4: after the fan-out the final decision reads the success count:
    above zero it answers status 200, result "authorized",
    customerVerificationResult "TransactionApproved"; otherwise status
    200, "SentToFraudDept", "TransactionDeclined".  The decision is taken
    inside step [advanceTransaction]: the step's body is the last thing
    the run executes, its result is recorded in the ledger and is the
    handler's result; a replay on that ledger, under any environment,
    returns the recorded result and runs no step body again. *)
Theorem final_decision_is_a_step E event z :
  scored_value E event = Some (VInt z) ->
  z = 3 \/ z = 4 ->
  exists r ctx (pre : list op),
    handler E event fresh = (Ok r, ctx)
    /\ field r "statusCode" = Some (VInt 200)
    /\ (if bool_decide (0 < success_count (verified E))
        then body_field r "result" = Some (VStr "authorized")
             /\ body_field r "customerVerificationResult"
                = Some (VStr "TransactionApproved")
        else body_field r "result" = Some (VStr "SentToFraudDept")
             /\ body_field r "customerVerificationResult"
                = Some (VStr "TransactionDeclined"))
    /\ trace ctx
       = (pre ++ [StepStarted "advanceTransaction" None;
                  decision_log (verified E)])%list
    /\ ledger ctx !! "advanceTransaction" = Some r
    /\ forall E', exists ctx',
         handler E' event {| ledger := ledger ctx; trace := [] |}
         = (Ok r, ctx')
         /\ List.filter (step_op "advanceTransaction") (trace ctx')
            = [StepReplayed "advanceTransaction"]
         /\ List.filter step_started (trace ctx') = [].
Proof.
  intros Hsv Hz.
  destruct (scored_value_inv _ _ _ Hsv)
    as (Hcb & i & a & l & v & Hi & Ha & Hl & Hv & Hs).
  destruct (medium_score z Hz) as (H3 & H5 & H2 & H5').
  eexists _, _, _. split; [by eapply run_medium|].
  split; [unfold decision; by destruct (0 <? _)|].
  split.
  { unfold decision. case_bool_decide as Hpos.
    - by rewrite (proj2 (Z.ltb_lt _ _) Hpos).
    - rewrite (proj2 (Z.ltb_ge _ _)); [done|lia]. }
  split.
  { cbn [trace]. rewrite !app_comm_cons, !app_assoc. reflexivity. }
  split; [done|].
  intros E'. eexists. split.
  { eapply (replay_medium E' event i a l v); try done. }
  split; count_ops.
Qed.

Lemma final_decision_is_a_step_witness :
  exists r ctx (pre : list op),
    handler (scorer 4 (Raise wait_timeout)) gaming fresh = (Ok r, ctx)
    /\ field r "statusCode" = Some (VInt 200)
    /\ (if bool_decide
             (0 < success_count (verified (scorer 4 (Raise wait_timeout))))
        then body_field r "result" = Some (VStr "authorized")
             /\ body_field r "customerVerificationResult"
                = Some (VStr "TransactionApproved")
        else body_field r "result" = Some (VStr "SentToFraudDept")
             /\ body_field r "customerVerificationResult"
                = Some (VStr "TransactionDeclined"))
    /\ trace ctx
       = (pre ++ [StepStarted "advanceTransaction" None;
                  decision_log (verified (scorer 4 (Raise wait_timeout)))])%list
    /\ ledger ctx !! "advanceTransaction" = Some r
    /\ forall E', exists ctx',
         handler E' gaming {| ledger := ledger ctx; trace := [] |}
         = (Ok r, ctx')
         /\ List.filter (step_op "advanceTransaction") (trace ctx')
            = [StepReplayed "advanceTransaction"]
         /\ List.filter step_started (trace ctx') = [].
Proof.
  apply (final_decision_is_a_step (scorer 4 (Raise wait_timeout)) gaming 4).
  - vm_compute. reflexivity.
  - right. reflexivity.
Defined.







(** C7, as stated, fails: a transaction that arrives with the score 2
    still goes through step [fraudCheck]. *)
Lemma supplied_score_still_calls_step :
  prescored !! "score" = Some (VInt 2)
  /\ ne_int (VInt 2) 0 = true
  /\ List.filter (step_op "fraudCheck")
       (trace (snd (handler offline prescored fresh)))
     = [StepStarted "fraudCheck" None].
Proof. repeat split; vm_compute; reflexivity. Qed.

(** C7, amended: for a transaction that arrives with a nonzero score,
    step [fraudCheck] is still called, once, and its body returns the
    supplied score as the scored value without invoking the scorer: the
    run makes no call to the agent runtime, and a result the handler
    returns reports the supplied score as fraud_score. *)
Theorem supplied_score_used E event score :
  event !! "callbackId" = None ->
  first_missing event = None ->
  event !! "score" = Some score ->
  ne_int score 0 = true ->
  scored_value E event = Some score
  /\ List.filter (step_op "fraudCheck")
       (trace (snd (handler E event fresh)))
     = [StepStarted "fraudCheck" None]
  /\ List.filter agent_op (trace (snd (handler E event fresh))) = []
  /\ forall r,
       fst (handler E event fresh) = Ok r ->
       body_field r "fraud_score" = Some score.
Proof.
  intros Hcb Hm Hscore Hne.
  destruct (first_missing_None _ Hm) as (i & a & l & v & Hi & Ha & Hl & Hv).
  assert (get event "score" (VInt 0) = score) as Hget
    by (unfold get; by rewrite Hscore).
  assert (scoring E a l v (get event "score" (VInt 0)) = Ok score
          /\ scoring_ops E a l v (get event "score" (VInt 0)) = [])
    as [Hs Hops] by (rewrite Hget; by apply scoring_supplied).
  split; [by eapply handler_records_score|].
  destruct (route_cases score)
    as [Hlow|[[e He]|[[H3 H5]|[(H3 & H5 & H2 & H5')|(H3 & H5 & H2)]]]].
  - erewrite run_low by done. rewrite Hops.
    repeat split; try count_ops. by intros r [= <-].
  - erewrite run_unorderable by done. rewrite Hops.
    repeat split; try count_ops. done.
  - erewrite run_high by done. rewrite Hops.
    repeat split; try count_ops. by intros r [= <-].
  - erewrite run_medium by done. rewrite Hops.
    destruct (decision_log_is_log (verified E)) as [m ->].
    repeat split; try count_ops. intros r [= <-].
    unfold decision. by destruct (0 <? _).
  - erewrite run_unknown by done. rewrite Hops.
    repeat split; try count_ops. by intros r [= <-].
Qed.

Lemma supplied_score_used_witness :
  scored_value offline prescored = Some (VInt 2)
  /\ List.filter (step_op "fraudCheck")
       (trace (snd (handler offline prescored fresh)))
     = [StepStarted "fraudCheck" None]
  /\ List.filter agent_op (trace (snd (handler offline prescored fresh))) = []
  /\ forall r,
       fst (handler offline prescored fresh) = Ok r ->
       body_field r "fraud_score" = Some (VInt 2).
Proof.
  apply (supplied_score_used offline prescored (VInt 2));
    vm_compute; reflexivity.
Defined.



(** ** The sample transactions *)

(** Scored 5 by the agent: sent to the fraud department. *)
Example electronics_escalated :
  fst (handler (scorer 5 (Raise wait_timeout)) electronics fresh)
  = Ok (response 200 (VInt 3) (VInt 6500) (VInt 5) "SentToFraudDept" None).
Proof. vm_compute. reflexivity. Qed.

(** Scored 1 by the agent: authorized. *)
Example coffee_authorized :
  fst (handler (scorer 1 (Raise wait_timeout)) coffee fresh)
  = Ok (response 200 (VInt 7) (VInt 45) (VInt 1) "authorized" None).
Proof. vm_compute. reflexivity. Qed.

(** Scored 4 by the agent, the email callback delivered: authorized after
    verification. *)
Example gaming_verified :
  fst (handler (scorer 4 (Raise wait_timeout)) gaming fresh)
  = Ok (response 200 (VInt 12) (VInt 1200) (VInt 4) "authorized"
          (Some "TransactionApproved")).
Proof. vm_compute. reflexivity. Qed.

(** A score that is neither below 3, nor 5 or more, nor between: the
    trailing answer of the handler, which no integer score reaches. *)
Example unordered_score_unknown :
  fst (handler confused coffee fresh)
  = Ok (response 400 (VInt 7) (VInt 45) (VFloat S754_nan) "Unknown" None).
Proof. vm_compute. reflexivity. Qed.

(** * Further properties of the code *)

Import Samples.

(** ** Every way a first run can go *)

(** Splits on the way a first run of the handler on [event] goes, leaving
    the run of each way as [Hrun]. *)
Ltac first_run E event :=
  destruct (event !! "callbackId") as [cb|] eqn:Hcb;
  [ pose proof (run_callback E event cb fresh Hcb) as Hrun
  | destruct (first_missing event) as [key|] eqn:Hm;
    [ pose proof (run_missing E event key fresh Hcb Hm) as Hrun
    | destruct (first_missing_None _ Hm)
        as (i & a & l & v & Hi & Ha & Hl & Hv);
      destruct (scoring E a l v (get event "score" (VInt 0)))
        as [s|e] eqn:Hs;
      [ destruct (route_cases s)
          as [Hlow|[[e He]|[[H3 H5]|[(H3 & H5 & H2 & H5')|(H3 & H5 & H2)]]]];
        [ pose proof (run_low E event i a l v Hcb Hi Ha Hl Hv s Hs Hlow)
            as Hrun
        | pose proof (run_unorderable E event i a l v Hcb Hi Ha Hl Hv s e
                        Hs He) as Hrun
        | pose proof (run_high E event i a l v Hcb Hi Ha Hl Hv s Hs H3 H5)
            as Hrun
        | pose proof (run_medium E event i a l v Hcb Hi Ha Hl Hv s Hs H3 H5
                        H2 H5') as Hrun
        | pose proof (run_unknown E event i a l v Hcb Hi Ha Hl Hv s Hs H3 H5
                        H2) as Hrun ]
      | pose proof (run_scoring_fails E event i a l v Hcb Hi Ha Hl Hv e Hs)
          as Hrun ] ] ].

Lemma decision_fields i a s batch :
  field (decision i a s batch) "statusCode" = Some (VInt 200)
  /\ body_field (decision i a s batch) "transaction_id" = Some i
  /\ body_field (decision i a s batch) "amount" = Some a
  /\ body_field (decision i a s batch) "fraud_score" = Some s.
Proof. unfold decision. by destruct (0 <? success_count batch). Qed.

(** X1: whenever a first run on a transaction event returns a result, its
    status is 200 or 400, its body reports the id and the amount of the
    event as they came, and its fraud_score is the value recorded by
    step fraudCheck. *)
Theorem result_reports_request E event r ctx :
  event !! "callbackId" = None ->
  handler E event fresh = (Ok r, ctx) ->
  (field r "statusCode" = Some (VInt 200)
   \/ field r "statusCode" = Some (VInt 400))
  /\ body_field r "transaction_id" = event !! "id"
  /\ body_field r "amount" = event !! "amount"
  /\ body_field r "fraud_score" = scored_value E event
  /\ is_Some (scored_value E event).
Proof.
  intros Hno Hr. unfold scored_value.
  first_run E event; rewrite Hrun in Hr |- *; try done;
    injection Hr as <- <-; rewrite ?Hi, ?Ha.
  - repeat split; eauto.
  - repeat split; eauto.
  - destruct (decision_fields i a s (verified E)) as (? & ? & ? & ?).
    repeat split; eauto.
  - repeat split; eauto.
Qed.

Lemma result_reports_request_witness :
  (field (response 200 (VInt 7) (VInt 45) (VInt 1) "authorized" None)
     "statusCode" = Some (VInt 200)
   \/ field (response 200 (VInt 7) (VInt 45) (VInt 1) "authorized" None)
        "statusCode" = Some (VInt 400))
  /\ body_field (response 200 (VInt 7) (VInt 45) (VInt 1) "authorized" None)
       "transaction_id" = coffee !! "id"
  /\ body_field (response 200 (VInt 7) (VInt 45) (VInt 1) "authorized" None)
       "amount" = coffee !! "amount"
  /\ body_field (response 200 (VInt 7) (VInt 45) (VInt 1) "authorized" None)
       "fraud_score" = scored_value (scorer 1 (Raise wait_timeout)) coffee
  /\ is_Some (scored_value (scorer 1 (Raise wait_timeout)) coffee).
Proof.
  apply (result_reports_request (scorer 1 (Raise wait_timeout)) coffee
           (response 200 (VInt 7) (VInt 45) (VInt 1) "authorized" None)
           (snd (handler (scorer 1 (Raise wait_timeout)) coffee fresh))).
  - reflexivity.
  - vm_compute. reflexivity.
Defined.

(** ** Scores that cannot be ordered *)

(** A float is ordered against every integer or against none. *)
Lemma float_cmp_int_nan f k :
  float_cmp_int f k = Unordered -> f = S754_nan.
Proof.
  destruct f as [?|[]| |s m e]; cbn; try done.
  by destruct (0 <=? e).
Qed.

(** The order of a float against the integers is that of one number. *)
Lemma float_cmp_int_mono f k k' :
  k <= k' ->
  (float_cmp_int f k = Ordered Lt -> float_cmp_int f k' = Ordered Lt)
  /\ (float_cmp_int f k' = Ordered Gt -> float_cmp_int f k = Ordered Gt)
  /\ (k < k' -> float_cmp_int f k = Ordered Eq ->
      float_cmp_int f k' = Ordered Lt).
Proof.
  intros Hk.
  destruct f as [?|[]| |s m e]; unfold float_cmp_int; try done.
  - destruct (Z.compare_spec 0 k), (Z.compare_spec 0 k');
      repeat split; intros; first [done | lia].
  - set (n := if s then Z.neg m else Z.pos m). clearbody n.
    destruct (0 <=? e) eqn:He.
    + destruct (Z.compare_spec (n * 2 ^ e) k),
        (Z.compare_spec (n * 2 ^ e) k');
        repeat split; intros; first [done | lia].
    + assert (0 < 2 ^ (- e)) as Hp by (apply Z.pow_pos_nonneg; lia).
      set (p := 2 ^ (- e)) in *. clearbody p.
      assert (k * p <= k' * p) as Hle by nia.
      assert (k < k' -> k * p < k' * p) as Hlt by nia.
      destruct (Z.compare_spec n (k * p)), (Z.compare_spec n (k' * p));
        repeat split; intros; first [done | lia].
Qed.

(** Only a NaN is neither below 3, nor at least 5, nor between them. *)
Lemma unknown_is_nan s :
  lt_int s 3 = Ok false -> ge_int s 5 = Ok false ->
  int_lt 2 s = Ok false \/ (int_lt 2 s = Ok true /\ lt_int s 5 = Ok false) ->
  s = VFloat S754_nan.
Proof.
  destruct s as [|b|z|f| | |]; try done.
  - destruct b; vm_compute; intros; intuition discriminate.
  - rewrite !lt_int_VInt, ge_int_VInt, int_lt_VInt.
    repeat case_bool_decide; intros; try done; intuition (try done; lia).
  - unfold lt_int, ge_int, int_lt; cbn [cmp_int].
    destruct (float_cmp_int f 3) as [c3|] eqn:H3;
      [|by rewrite (float_cmp_int_nan _ _ H3)].
    destruct (float_cmp_int f 5) as [c5|] eqn:H5;
      [|by rewrite (float_cmp_int_nan _ _ H5)].
    destruct (float_cmp_int f 2) as [c2|] eqn:H2;
      [|by rewrite (float_cmp_int_nan _ _ H2)].
    destruct (float_cmp_int_mono f 2 3) as (L23 & G23 & E23); [lia|].
    destruct (float_cmp_int_mono f 3 5) as (L35 & G35 & E35); [lia|].
    rewrite H2, H3, H5 in *.
    destruct c3, c5, c2; intros ? ? [?|[? ?]]; try done;
      first [ specialize (L23 eq_refl); congruence
            | specialize (L35 eq_refl); congruence
            | specialize (G35 eq_refl); congruence
            | specialize (G23 eq_refl); congruence
            | specialize (E23 ltac:(lia) eq_refl); congruence
            | specialize (E35 ltac:(lia) eq_refl); congruence ].
Qed.

(** X2: a first run on a transaction event that returns a result either
    recorded a NaN score, and then answers 400 "Unknown" having started
    no step but fraudCheck, or recorded any other score and answers 200.
    So the 400 answer is given exactly for a NaN. *)
Theorem unknown_only_for_nan E event r ctx :
  event !! "callbackId" = None ->
  handler E event fresh = (Ok r, ctx) ->
  (scored_value E event = Some (VFloat S754_nan)
   /\ field r "statusCode" = Some (VInt 400)
   /\ body_field r "result" = Some (VStr "Unknown")
   /\ List.filter step_started (trace ctx) = [StepStarted "fraudCheck" None])
  \/ (scored_value E event <> Some (VFloat S754_nan)
      /\ field r "statusCode" = Some (VInt 200)).
Proof.
  intros Hno Hr. unfold scored_value.
  first_run E event; rewrite Hrun in Hr |- *; try done;
    injection Hr as <- <-; cbn [snd ledger].
  - right. split; [|done].
    rewrite lookup_insert_ne, lookup_insert by done. by intros [= ->].
  - right. split; [|done].
    rewrite lookup_insert_ne, lookup_insert by done. by intros [= ->].
  - right. destruct (decision_fields i a s (verified E)) as (Hst & _).
    split; [|done].
    rewrite !lookup_insert_ne, lookup_insert by done.
    intros [= ->]. done.
  - left. rewrite (unknown_is_nan s H3 H5 H2).
    repeat split; count_ops.
Qed.

Lemma unknown_only_for_nan_witness :
  (scored_value confused coffee = Some (VFloat S754_nan)
   /\ field (response 400 (VInt 7) (VInt 45) (VFloat S754_nan) "Unknown" None)
        "statusCode" = Some (VInt 400)
   /\ body_field
        (response 400 (VInt 7) (VInt 45) (VFloat S754_nan) "Unknown" None)
        "result" = Some (VStr "Unknown")
   /\ List.filter step_started (trace (snd (handler confused coffee fresh)))
      = [StepStarted "fraudCheck" None])
  \/ (scored_value confused coffee <> Some (VFloat S754_nan)
      /\ field
           (response 400 (VInt 7) (VInt 45) (VFloat S754_nan) "Unknown" None)
           "statusCode" = Some (VInt 200)).
Proof.
  apply (unknown_only_for_nan confused coffee
           (response 400 (VInt 7) (VInt 45) (VFloat S754_nan) "Unknown" None)
           (snd (handler confused coffee fresh))).
  - reflexivity.
  - vm_compute. reflexivity.
Defined.

(** X3: a recorded score that is not a number (a string, a list, an
    object or null) makes the first run raise TypeError at the first
    comparison; the score stays recorded, fraudCheck is the only step
    started and no fan-out begins. *)
Theorem unordered_score_raises E event s :
  scored_value E event = Some s ->
  cmp_int s 0 = None ->
  exists ctx,
    handler E event fresh = (Raise (unorderable "<" s), ctx)
    /\ ledger ctx = <["fraudCheck" := s]> ∅
    /\ List.filter step_started (trace ctx) = [StepStarted "fraudCheck" None]
    /\ List.filter parallel_op (trace ctx) = [].
Proof.
  intros Hsv Hc.
  destruct (scored_value_inv _ _ _ Hsv)
    as (Hcb & i & a & l & v & Hi & Ha & Hl & Hv & Hs).
  assert (lt_int s 3 = Raise (unorderable "<" s)) as Hlt.
  { unfold lt_int. by destruct s. }
  eexists. split; [by eapply run_unorderable|].
  repeat split; count_ops.
Qed.

Lemma unordered_score_raises_witness :
  exists ctx,
    handler offline worded fresh
    = (Raise (unorderable "<" (VStr "high")), ctx)
    /\ ledger ctx = <["fraudCheck" := VStr "high"]> ∅
    /\ List.filter step_started (trace ctx) = [StepStarted "fraudCheck" None]
    /\ List.filter parallel_op (trace ctx) = [].
Proof.
  apply (unordered_score_raises offline worded (VStr "high")).
  - vm_compute. reflexivity.
  - reflexivity.
Defined.

(** ** The steps of a run *)

Lemma started_names_app t t' :
  started_names (t ++ t') = (started_names t ++ started_names t')%list.
Proof.
  induction t as [|o t IH]; [done|].
  destruct o; cbn; by rewrite ?IH.
Qed.

Lemma started_names_scoring_ops E a l v s :
  started_names (scoring_ops E a l v s) = [].
Proof.
  pose proof (scoring_ops_spec E a l v s) as H.
  induction H as [|o t Ho _ IH]; [done|]. by destruct o.
Qed.

Lemma started_names_branch_log msg outcome :
  started_names (branch_log msg outcome) = [].
Proof.
  unfold branch_log. destruct outcome as [|e]; [done|].
  by destruct (mentions_timeout e).
Qed.

(** Names the steps started in a trace whose shape is known. *)
Ltac names :=
  unfold email_ops, sms_ops; cbn [snd trace ledger];
  repeat match goal with
         | |- context [decision_log ?batch] =>
             let m := fresh "m" in
             destruct (decision_log_is_log batch) as [m ->]
         end;
  repeat first
    [ rewrite started_names_app
    | rewrite started_names_scoring_ops
    | rewrite started_names_branch_log
    | progress cbn -[scoring_ops branch_log] ].

(** X4: in a first run no step name is started twice, and every result
    in the ledger belongs to a step the run has started; this holds for
    every event and every environment, also for runs that raise. *)
Theorem step_names_distinct E event :
  NoDup (started_names (trace (snd (handler E event fresh))))
  /\ forall name,
      is_Some (ledger (snd (handler E event fresh)) !! name) ->
      In name (started_names (trace (snd (handler E event fresh)))).
Proof.
  first_run E event; rewrite Hrun; names;
    (split;
     [ by apply (bool_decide_unpack _)
     | intros name;
       rewrite ?lookup_insert_is_Some, ?lookup_empty, ?is_Some_alt;
       cbn; intuition (subst; tauto) ]).
Qed.

(** X5: a first run that returned a result can be replayed on the ledger
    it left, under any environment: the replay returns the same result,
    leaves the ledger as it is, starts no step body and makes no call to
    the scorer. *)
Theorem finished_run_replays E E' event r ctx :
  handler E event fresh = (Ok r, ctx) ->
  exists t,
    handler E' event {| ledger := ledger ctx; trace := [] |}
    = (Ok r, {| ledger := ledger ctx; trace := t |})
    /\ List.filter step_started t = []
    /\ List.filter agent_op t = [].
Proof.
  intros Hr.
  first_run E event; rewrite Hrun in Hr; try done;
    injection Hr as <- <-; cbn [ledger extend fresh].
  - eexists. split; [by apply run_callback|]. done.
  - eexists. split; [enter; eapply runs_eq; [exec|finish]|]. done.
  - eexists. split; [enter; eapply runs_eq; [exec|finish]|]. done.
  - eexists. split; [enter; eapply runs_eq; [exec|finish]|].
    split; count_ops.
  - destruct H2 as [H2|[H2 H5']];
      (eexists; split; [enter; eapply runs_eq; [exec|finish]|]); done.
Qed.

Lemma finished_run_replays_witness :
  exists t,
    handler offline gaming
      {| ledger :=
           ledger (snd (handler (scorer 3 (Raise wait_timeout)) gaming fresh));
         trace := [] |}
    = (Ok (response 200 (VInt 12) (VInt 1200) (VInt 3) "authorized"
             (Some "TransactionApproved")),
       {| ledger :=
            ledger (snd (handler (scorer 3 (Raise wait_timeout)) gaming
                           fresh));
          trace := t |})
    /\ List.filter step_started t = []
    /\ List.filter agent_op t = [].
Proof.
  apply (finished_run_replays (scorer 3 (Raise wait_timeout)) offline gaming
           (response 200 (VInt 12) (VInt 1200) (VInt 3) "authorized"
              (Some "TransactionApproved"))
           (snd (handler (scorer 3 (Raise wait_timeout)) gaming fresh))).
  vm_compute. reflexivity.
Defined.

(** ** Scores that count as no score *)

(** A score that equals 0 is not looked at again by the scoring. *)
Lemma scoring_zero E a l v s :
  ne_int s 0 = false ->
  scoring E a l v s = scoring E a l v (VInt 0)
  /\ scoring_ops E a l v s = scoring_ops E a l v (VInt 0).
Proof.
  intros Hne. unfold scoring, scoring_ops, check_fraud_score.
  by rewrite Hne.
Qed.

Lemma first_missing_delete_score event :
  first_missing (delete "score" event) = first_missing event.
Proof.
  unfold first_missing, required_fields. cbn [find].
  by rewrite !lookup_delete_ne by done.
Qed.

(** X6: a transaction event whose score equals 0 (the integer 0, 0.0,
    -0.0 or False) is run exactly like the same event without a score:
    same result, same ledger, same calls. *)
Theorem zero_score_is_no_score E event :
  event !! "callbackId" = None ->
  ne_int (get event "score" (VInt 0)) 0 = false ->
  handler E event fresh = handler E (delete "score" event) fresh.
Proof.
  intros Hno Hne.
  assert (get (delete "score" event) "score" (VInt 0) = VInt 0) as Hget.
  { unfold get. by rewrite lookup_delete_eq. }
  assert (delete "score" event !! "callbackId" = None) as Hcb'.
  { by rewrite lookup_delete_ne. }
  first_run E event; try done; rewrite Hrun; symmetry.
  1: { apply run_missing; [done|]. by rewrite first_missing_delete_score. }
  all: destruct (scoring_zero E a l v _ Hne) as [Hs0 Hops];
    rewrite Hops, <- Hget.
  - apply (run_low E (delete "score" event) i a l v);
      rewrite ?lookup_delete_ne by done; try done.
    rewrite Hget. congruence.
  - apply (run_unorderable E (delete "score" event) i a l v);
      rewrite ?lookup_delete_ne by done; try done.
    rewrite Hget. congruence.
  - apply (run_high E (delete "score" event) i a l v);
      rewrite ?lookup_delete_ne by done; try done.
    rewrite Hget. congruence.
  - apply (run_medium E (delete "score" event) i a l v);
      rewrite ?lookup_delete_ne by done; try done.
    rewrite Hget. congruence.
  - apply (run_unknown E (delete "score" event) i a l v);
      rewrite ?lookup_delete_ne by done; try done.
    rewrite Hget. congruence.
  - apply (run_scoring_fails E (delete "score" event) i a l v);
      rewrite ?lookup_delete_ne by done; try done.
    rewrite Hget. congruence.
Qed.

Lemma zero_score_is_no_score_witness :
  handler (scorer 4 (Raise wait_timeout)) zero_scored fresh
  = handler (scorer 4 (Raise wait_timeout)) (delete "score" zero_scored)
      fresh.
Proof.
  apply (zero_score_is_no_score (scorer 4 (Raise wait_timeout)) zero_scored).
  - reflexivity.
  - reflexivity.
Defined.

(** ** What the scoring step does with its environment *)







(** X9: a non-null "risk_score" in the "output" object of the scorer's
    reply becomes the recorded score of an unscored transaction as it
    is: whatever its type or range, it is neither checked nor
    converted. *)
Theorem reply_score_taken_verbatim E event arn i a l v reply output risk :
  event !! "callbackId" = None ->
  event !! "id" = Some i ->
  event !! "amount" = Some a -> event !! "location" = Some l ->
  event !! "vendor" = Some v ->
  ne_int (get event "score" (VInt 0)) 0 = false ->
  arn_of E = Some arn ->
  invoke_agent_runtime E arn (scorer_payload a l v) = Ok (VDict reply) ->
  reply !! "output" = Some (VDict output) ->
  output !! "risk_score" = Some risk ->
  is_none risk = false ->
  scored_value E event = Some risk.
Proof.
  intros Hcb Hi Ha Hl Hv Hne Harn Hr Ho Hk Hn.
  eapply handler_records_score; try done.
  by eapply scoring_reply.
Qed.

Lemma reply_score_taken_verbatim_witness :
  scored_value (scorer 7 (Raise wait_timeout)) coffee = Some (VInt 7).
Proof.
  apply (reply_score_taken_verbatim (scorer 7 (Raise wait_timeout)) coffee
           "arn:aws:bedrock-agentcore:fraud-agent"
           (VInt 7) (VInt 45) (VStr "Portland") (VStr "Coffee Shop")
           (<["output" :=
                VDict (<["risk_score" := VInt 7]>
                         (<["amount" := VInt 0]> ∅))]> ∅)
           (<["risk_score" := VInt 7]> (<["amount" := VInt 0]> ∅))
           (VInt 7)); reflexivity.
Defined.

(** ** Calls to the scorer and to the customer *)


(** Filters a trace whose shape is known, keeping the scoring apart. *)
Ltac count_calls :=
  unfold email_ops, sms_ops; cbn [snd trace];
  repeat match goal with
         | |- context [decision_log ?batch] =>
             let m := fresh "m" in
             destruct (decision_log_is_log batch) as [m ->]
         end;
  repeat first
    [ rewrite List.filter_app
    | rewrite filter_branch_log by done
    | rewrite app_nil_r
    | progress cbn -[scoring_ops branch_log] ].


(** X11: in a first run either each of the two notification steps runs
    exactly once, and then the recorded score is a number that is not
    below 3 and is below 5; or neither runs, and then no such score was
    recorded. *)
Theorem customer_contacted_iff_medium E event :
  (List.filter (step_op "SendVerificationEmail")
     (trace (snd (handler E event fresh)))
   = [StepStarted "SendVerificationEmail" notification_step]
   /\ List.filter (step_op "SendVerificationSMS")
        (trace (snd (handler E event fresh)))
      = [StepStarted "SendVerificationSMS" notification_step]
   /\ exists s,
       scored_value E event = Some s
       /\ lt_int s 3 = Ok false /\ lt_int s 5 = Ok true)
  \/ (List.filter notification_op (trace (snd (handler E event fresh))) = []
      /\ ~ exists s,
            scored_value E event = Some s
            /\ lt_int s 3 = Ok false /\ lt_int s 5 = Ok true).
Proof.
  first_run E event;
    try rewrite (handler_records_score E event i a l v s Hcb Hi Ha Hl Hv Hs);
    unfold scored_value; rewrite Hrun; count_calls;
    rewrite ?filter_scoring_ops by (by intros []; cbn);
    cbn [snd ledger app].
  6: { left. split; [done|]. split; [done|]. by exists s. }
  all: right; split; [done|].
  all: try (by intros (s' & [=] & _)).
  all: intros (s' & [= <-] & Hn3 & Hn5); try congruence.
  - revert H5 Hn5. unfold lt_int, ge_int.
    by destruct (cmp_int s 5) as [[[]|]|].
  - rewrite (unknown_is_nan s H3 H5 H2) in Hn5. done.
Qed.

(** ** Resuming a run *)








(** ** What a run does not repeat, whatever the ledger it starts from *)

(** A notification step on any context: replayed when recorded, else run
    with its one log line. *)
Lemma notify_step_run c callback_id tx config ctx :
  step
    (match c with
     | Email => send_email_notification
     | Sms => send_sms_notification
     end callback_id tx)
    (notification_of c) config ctx
  = match ledger ctx !! notification_of c with
    | Some x => (Ok x, record (StepReplayed (notification_of c)) ctx)
    | None =>
        (Ok VNone,
         {| ledger := <[notification_of c := VNone]> (ledger ctx);
            trace :=
              trace ctx
              ++ [StepStarted (notification_of c) config;
                  LogInfo (sent_line c) [VStr callback_id]] |})
    end.
Proof.
  unfold step. destruct (ledger ctx !! notification_of c); [done|].
  destruct c; cbn; by rewrite <- app_assoc.
Qed.

Section Preserves.
Context (P : gmap string value -> Prop) (Q : list op -> Prop).
Hypothesis Q_nil : Q [].
Hypothesis Q_app : forall t t', Q t -> Q t' -> Q (t ++ t')%list.
Hypothesis Q_other :
  forall o,
    agent_op o = false -> step_started o = false ->
    notification_sent Email o = false -> notification_sent Sms o = false ->
    Q [o].
Hypothesis P_insert : forall L name x, P L -> P (<[name := x]> L).
Hypothesis Q_start :
  forall L name config,
    P L -> L !! name = None -> name <> "fraudCheck" ->
    Q [StepStarted name config].
Hypothesis scoring_step :
  forall E a l v s config,
    preserves P Q (step (check_fraud_score E a l v s) "fraudCheck" config).
Hypothesis notify_step :
  forall c callback_id tx config,
    preserves P Q
      (step
         (match c with
          | Email => send_email_notification
          | Sms => send_sms_notification
          end callback_id tx)
         (notification_of c) config).

Lemma preserves_ret {A} (a : A) : preserves P Q (ret a).
Proof.
  intros ctx HP. split; [done|]. exists []. cbn. by rewrite app_nil_r.
Qed.

Lemma preserves_raise {A} e : preserves P Q (@raise A e).
Proof.
  intros ctx HP. split; [done|]. exists []. cbn. by rewrite app_nil_r.
Qed.

Lemma preserves_lift {A} (r : result A) : preserves P Q (lift r).
Proof.
  intros ctx HP. split; [done|]. exists []. cbn. by rewrite app_nil_r.
Qed.

Lemma preserves_bind {A B} (m : M A) (k : A -> M B) :
  preserves P Q m -> (forall a, preserves P Q (k a)) ->
  preserves P Q (bind m k).
Proof.
  intros Hm Hk ctx HP. unfold bind.
  destruct (Hm ctx HP) as [HP1 [t [Ht HQ]]].
  destruct (m ctx) as [[a|e] ctx1]; cbn [snd] in *; [|by eauto].
  destruct (Hk a ctx1 HP1) as [HP2 [t' [Ht' HQ']]].
  split; [done|]. exists (t ++ t')%list.
  split; [by rewrite Ht', Ht, app_assoc|by apply Q_app].
Qed.

Lemma preserves_try {A} (m : M A) h :
  preserves P Q m -> (forall e, preserves P Q (h e)) ->
  preserves P Q (try_except m h).
Proof.
  intros Hm Hh ctx HP. unfold try_except.
  destruct (Hm ctx HP) as [HP1 [t [Ht HQ]]].
  destruct (m ctx) as [[a|e] ctx1]; cbn [snd] in *; [by eauto|].
  destruct (Hh e ctx1 HP1) as [HP2 [t' [Ht' HQ']]].
  split; [done|]. exists (t ++ t')%list.
  split; [by rewrite Ht', Ht, app_assoc|by apply Q_app].
Qed.

Lemma preserves_emit o :
  agent_op o = false -> step_started o = false ->
  notification_sent Email o = false -> notification_sent Sms o = false ->
  preserves P Q (emit o).
Proof. intros Ha Hs He Hm ctx HP. split; [done|]. exists [o]. eauto. Qed.

Lemma preserves_logger_info msg args :
  notification_sent Email (LogInfo msg args) = false ->
  notification_sent Sms (LogInfo msg args) = false ->
  preserves P Q (logger_info msg args).
Proof. intros He Hm. by apply preserves_emit. Qed.

Lemma preserves_collect branch :
  preserves P Q branch -> preserves P Q (collect branch).
Proof.
  intros Hb ctx HP. unfold collect.
  destruct (Hb ctx HP) as [Hl Ht]. by destruct (branch ctx).
Qed.

Lemma preserves_step body name config :
  name <> "fraudCheck" ->
  preserves P Q body -> preserves P Q (step body name config).
Proof.
  intros Hname Hb ctx HP. unfold step.
  destruct (ledger ctx !! name) as [x|] eqn:Hn.
  { split; [done|]. exists [StepReplayed name]. eauto. }
  destruct (Hb (record (StepStarted name config) ctx) HP)
    as [HP1 [t [Ht HQ]]].
  assert (Q (StepStarted name config :: t)) as HQ'.
  { apply (Q_app [_]); [|done]. by apply (Q_start (ledger ctx)). }
  destruct (body _) as [[x|e] ctx1] eqn:Hbody;
    cbn [snd ledger trace record] in *.
  - split; [by apply P_insert|]. exists (StepStarted name config :: t).
    split; [by rewrite Ht, <- app_assoc|done].
  - split; [done|]. exists (StepStarted name config :: t).
    split; [by rewrite Ht, <- app_assoc|done].
Qed.

Ltac preserves_tac :=
  first
    [ apply preserves_bind; [|intros ?]
    | apply scoring_step
    | apply (notify_step Email)
    | apply (notify_step Sms)
    | apply preserves_step; [done|]
    | apply preserves_try; [|intros ?]
    | apply preserves_collect
    | apply preserves_ret
    | apply preserves_raise
    | apply preserves_lift
    | apply preserves_logger_info; [done|done]
    | apply preserves_emit; [done|done|done|done]
    | match goal with
      | |- preserves _ _ (if ?b then _ else _) => destruct b
      | |- preserves _ _ (match ?x with _ => _ end) => destruct x
      end ].

Lemma handler_preserves E event : preserves P Q (handler E event).
Proof.
  unfold handler, authorize_transaction, send_to_fraud, suspend_transaction,
    parallel, email_verification, sms_verification, wait_for_callback,
    advance_transaction.
  cbn [run_branches length].
  repeat preserves_tac.
Qed.
End Preserves.

(** The lines a scoring logs are not those of a notification. *)
Lemma scoring_sends_nothing c E a l v s :
  List.filter (notification_sent c) (scoring_ops E a l v s) = [].
Proof.
  unfold scoring_ops, check_fraud_score.
  destruct (ne_int s 0); [done|].
  cbv [bind logger_info emit lift ret raise fst snd].
  destruct (arn_of E) as [arn|]; [|by destruct c].
  destruct (invoke_agent_runtime E arn _) as [reply|e]; [|by destruct c].
  destruct (obj_get reply "output" (VDict ∅)) as [output|e];
    [|by destruct c].
  destruct (obj_get output "risk_score" VNone) as [risk|e];
    [|by destruct c].
  destruct (negb (is_none risk)); [|by destruct c].
  destruct (obj_getitem reply "output") as [output'|e]; by destruct c.
Qed.

(** X13: whatever ledger the handler is started on, once the
    notification step of a channel (SendVerificationEmail or
    SendVerificationSMS) has a recorded result, no run sends that
    notification again: the calls the run adds to the trace hold no
    "notification sent" line of that channel. *)
Theorem recorded_notification_not_resent E event ctx c x :
  ledger ctx !! notification_of c = Some x ->
  exists t,
    trace (snd (handler E event ctx)) = (trace ctx ++ t)%list
    /\ List.filter (notification_sent c) t = [].
Proof.
  intros Hrec.
  apply (handler_preserves
           (fun L => is_Some (L !! notification_of c))
           (fun t => List.filter (notification_sent c) t = [])).
  - done.
  - intros t t' Ht Ht'. by rewrite List.filter_app, Ht, Ht'.
  - intros o _ _ He Hs. cbn. destruct c; by rewrite ?He, ?Hs.
  - intros L n y HL. rewrite lookup_insert_is_Some'. by right.
  - done.
  - intros E' a l v s config ctx' HP. unfold step.
    destruct (ledger ctx' !! "fraudCheck") as [y|] eqn:Hn.
    { split; [done|]. by exists [StepReplayed "fraudCheck"]. }
    rewrite check_fraud_score_run.
    destruct (scoring E' a l v s) as [y|e];
      cbn [snd ledger trace extend record];
      (split;
       [ rewrite ?lookup_insert_is_Some'; by eauto
       | exists (StepStarted "fraudCheck" config
                 :: scoring_ops E' a l v s);
         split; [by rewrite <- app_assoc|];
         cbn [List.filter notification_sent];
         apply scoring_sends_nothing ]).
  - intros c' callback_id tx config ctx' HP. rewrite notify_step_run.
    destruct (ledger ctx' !! notification_of c') as [y|] eqn:Hn;
      cbn [snd ledger trace record].
    { split; [done|]. by exists [StepReplayed (notification_of c')]. }
    split; [rewrite lookup_insert_is_Some'; by right|].
    eexists. split; [done|].
    destruct c, c'; try done; destruct HP; congruence.
  - by exists x.
Qed.

Lemma recorded_notification_not_resent_witness :
  exists t,
    trace (snd (handler silent gaming
                  {| ledger := <["SendVerificationSMS" := VNone]> ∅;
                     trace := [] |}))
    = (trace {| ledger := <["SendVerificationSMS" := VNone]> ∅;
                trace := [] |} ++ t)%list
    /\ List.filter (notification_sent Sms) t = [].
Proof.
  apply (recorded_notification_not_resent silent gaming
           {| ledger := <["SendVerificationSMS" := VNone]> ∅; trace := [] |}
           Sms VNone).
  reflexivity.
Defined.

(** X14: whatever ledger the handler is started on, once a score is
    recorded under fraudCheck no run calls the scorer: the calls the run
    adds to the trace hold no scorer call. *)
Theorem recorded_score_never_rescored E event ctx s :
  ledger ctx !! "fraudCheck" = Some s ->
  exists t,
    trace (snd (handler E event ctx)) = (trace ctx ++ t)%list
    /\ List.filter agent_op t = [].
Proof.
  intros Hrec.
  apply (handler_preserves
           (fun L => is_Some (L !! "fraudCheck"))
           (fun t => List.filter agent_op t = [])).
  - done.
  - intros t t' Ht Ht'. by rewrite List.filter_app, Ht, Ht'.
  - intros o Ho _ _ _. cbn. by rewrite Ho.
  - intros L n y HL. rewrite lookup_insert_is_Some'. by right.
  - done.
  - intros E' a l v s' config ctx' [y HP]. unfold step. rewrite HP.
    split; [by eexists|]. by exists [StepReplayed "fraudCheck"].
  - intros c callback_id tx config ctx' HP. rewrite notify_step_run.
    destruct (ledger ctx' !! notification_of c) as [y|] eqn:Hn;
      cbn [snd ledger trace record].
    { split; [done|]. by exists [StepReplayed (notification_of c)]. }
    split; [rewrite lookup_insert_is_Some'; by right|].
    by eexists.
  - by exists s.
Qed.

Lemma recorded_score_never_rescored_witness :
  exists t,
    trace (snd (handler (scorer 1 (Raise wait_timeout)) gaming
                  {| ledger := <["fraudCheck" := VInt 4]> ∅; trace := [] |}))
    = (trace {| ledger := <["fraudCheck" := VInt 4]> ∅; trace := [] |}
       ++ t)%list
    /\ List.filter agent_op t = [].
Proof.
  apply (recorded_score_never_rescored (scorer 1 (Raise wait_timeout)) gaming
           {| ledger := <["fraudCheck" := VInt 4]> ∅; trace := [] |}
           (VInt 4)).
  reflexivity.
Defined.

(** ** The scorer's endpoint and the analysis behind it *)

Import Tools.

Lemma append_cons c s t : String c s +:+ t = String c (s +:+ t).
Proof. reflexivity. Qed.

Lemma prefix_append s t : String.prefix s (s +:+ t) = true.
Proof.
  induction s as [|c s IH]; [by destruct t|].
  rewrite append_cons. cbn. by destruct (ascii_dec c c).
Qed.

(** X15: the endpoint answers 400 "Amount not provided" exactly when the
    amount is missing or falsy (0, 0.0, an empty string, null, ...), and
    then whatever the analysis would do, which is not run.  For any other
    amount, negative ones included, the analysis decides: its dictionary
    is the output, and anything else it returns or raises is answered
    500 "Agent processing failed: ...". *)
Theorem amount_gate W input :
  if truthy (get input "amount" VNone)
  then
    match Agent.invoke_agent W input with
    | Agent.InvocationResponse output =>
        Agent.analyze_transaction W input = Ok (VDict output)
    | Agent.HTTPException status_code detail =>
        status_code = 500
        /\ String.prefix "Agent processing failed: " detail = true
        /\ forall output,
            Agent.analyze_transaction W input <> Ok (VDict output)
    end
  else
    forall W',
      Agent.invoke_agent W' input
      = Agent.HTTPException 400
          "Amount not provided. Please include 'amount' (in USD) in the request.".
Proof.
  unfold Agent.invoke_agent, get.
  destruct (input !! "amount") as [amount|] eqn:Hin.
  - rewrite bool_decide_eq_false_2 by done.
    destruct (truthy amount); cbn [orb negb]; [|done].
    destruct (Agent.analyze_transaction W input) as [[]|]; try done.
    all: repeat split; try done; apply prefix_append.
  - done.
Qed.

(** *** The JSON block of an answer *)

Lemma from_first_brace_skip pre text :
  free_of "{" pre = true ->
  from_first_brace (pre +:+ text) = from_first_brace text.
Proof.
  induction pre as [|c pre IH]; [done|]. rewrite append_cons. cbn.
  destruct (Ascii.eqb c "{"); [done|]. exact IH.
Qed.

Lemma upto_last_brace_free text :
  free_of "}" text = true -> upto_last_brace text = None.
Proof.
  induction text as [|c text IH]; [done|]. cbn.
  destruct (Ascii.eqb c "}"); [done|]. intros H. by rewrite IH.
Qed.

Lemma upto_last_brace_end middle post :
  free_of "}" post = true ->
  upto_last_brace (middle +:+ "}" +:+ post) = Some (middle +:+ "}").
Proof.
  intros Hpost. induction middle as [|c middle IH].
  - change ("" +:+ "}" +:+ post) with (String "}" post).
    cbn. by rewrite upto_last_brace_free.
  - change (String c middle +:+ "}" +:+ post)
      with (String c (middle +:+ "}" +:+ post)).
    change (String c middle +:+ "}") with (String c (middle +:+ "}")).
    cbn [upto_last_brace]. by rewrite IH.
Qed.


(** X16: the fallback search of the analysis finds the text from the
    first opening brace to the last closing brace: whatever stands
    between them, further braces included, is part of the block, and the
    text before the first opening brace and after the last closing one
    is dropped. *)
Theorem json_block_found pre middle post :
  free_of "{" pre = true ->
  free_of "}" post = true ->
  search_json_block (pre +:+ "{" +:+ middle +:+ "}" +:+ post)
  = Some ("{" +:+ middle +:+ "}").
Proof.
  intros Hpre Hpost. unfold search_json_block.
  rewrite from_first_brace_skip by done.
  change (from_first_brace ("{" +:+ middle +:+ "}" +:+ post))
    with (Some ("{" +:+ middle +:+ "}" +:+ post)).
  by apply (upto_last_brace_end (String "{" middle)).
Qed.

Lemma json_block_found_witness :
  search_json_block
    ("Here: " +:+ "{" +:+ "1} and {2" +:+ "}" +:+ " done")
  = Some ("{" +:+ "1} and {2" +:+ "}").
Proof.
  apply (json_block_found "Here: " "1} and {2" " done"); reflexivity.
Defined.



(** ** The rule tools *)

Lemma lower_append a b : lower (a +:+ b) = lower a +:+ lower b.
Proof.
  induction a as [|c a IH]; [done|].
  rewrite append_cons. cbn [lower]. by rewrite IH.
Qed.

Lemma prefix_append_r n h t :
  String.prefix n h = true -> String.prefix n (h +:+ t) = true.
Proof.
  revert h. induction n as [|c n IH]; intros h; [by destruct h, t|].
  destruct h as [|c' h]; [done|]. rewrite append_cons. cbn.
  destruct (ascii_dec c c'); [apply IH|done].
Qed.

Lemma contains_append_r n h t :
  contains n h = true -> contains n (h +:+ t) = true.
Proof.
  induction h as [|c h IH].
  - cbn. rewrite orb_false_r. intros H.
    destruct n; [by destruct t|done].
  - rewrite append_cons. cbn [contains].
    intros [H|H]%orb_prop; apply orb_true_iff.
    + left. by apply (prefix_append_r n (String c h)).
    + right. by apply IH.
Qed.

Lemma contains_append_l n p h :
  contains n h = true -> contains n (p +:+ h) = true.
Proof.
  intros H. induction p as [|c p IH]; [done|].
  rewrite append_cons. cbn [contains]. rewrite IH. apply orb_true_r.
Qed.

(** A keyword found in a name is found in every text around the name. *)
Lemma any_in_embed keywords pre text post :
  any_in keywords (lower text) = true ->
  any_in keywords (lower (pre +:+ text +:+ post)) = true.
Proof.
  unfold any_in. rewrite !existsb_exists.
  intros (k & Hk & Hc). exists k. split; [done|].
  rewrite !lower_append. by apply contains_append_l, contains_append_r.
Qed.

Lemma score_of_vendor vendor :
  score_of (check_vendor_risk vendor)
  = if any_in high_risk_keywords (lower vendor) then 30
    else if any_in medium_risk_keywords (lower vendor) then 15 else 5.
Proof.
  unfold check_vendor_risk, score_of.
  destruct (any_in high_risk_keywords _);
    [|destruct (any_in medium_risk_keywords _)];
    by rewrite !lookup_insert_ne, lookup_insert by done.
Qed.

Lemma score_of_location location :
  score_of (check_location_risk location)
  = if any_in high_risk_locations (str_lower location) then 20
    else if any_in medium_risk_locations (str_lower location) then 10 else 5.
Proof.
  unfold check_location_risk, score_of.
  destruct (any_in high_risk_locations _);
    [|destruct (any_in medium_risk_locations _)];
    by rewrite !lookup_insert_ne, lookup_insert by done.
Qed.

(** X18: the vendor check looks for its keywords anywhere in the name, in
    any letter case, so text added before or after a vendor name never
    lowers the vendor's risk score. *)
Theorem vendor_risk_monotone pre vendor post :
  score_of (check_vendor_risk vendor)
  <= score_of (check_vendor_risk (pre +:+ vendor +:+ post)).
Proof.
  rewrite !score_of_vendor.
  pose proof (any_in_embed high_risk_keywords pre vendor post) as Hh.
  pose proof (any_in_embed medium_risk_keywords pre vendor post) as Hm.
  destruct (any_in high_risk_keywords (lower vendor)).
  { by rewrite Hh. }
  destruct (any_in medium_risk_keywords (lower vendor)).
  { rewrite Hm by done. by destruct (any_in high_risk_keywords _). }
  by destruct (any_in high_risk_keywords _), (any_in medium_risk_keywords _).
Qed.

Lemma complete_tail c s : complete (String c s) = true -> complete s = true.
Proof.
  destruct s as [|c2 [|c3 t3]]; cbn [complete]; try done.
  by intros [_ ?]%andb_prop.
Qed.

Lemma str_lower_cons c1 c2 t2 :
  str_lower (String c1 (String c2 t2))
  = if is_byte 196 c1 && is_byte 176 c2
    then String "i" (String (ascii_of_N 204)
                       (String (ascii_of_N 135) (str_lower t2)))
    else
      match t2 with
      | EmptyString => String (lower_ascii c1) (str_lower (String c2 t2))
      | String c3 t3 =>
          if is_byte 226 c1 && is_byte 132 c2 && is_byte 170 c3
          then String "k" (str_lower t3)
          else String (lower_ascii c1) (str_lower (String c2 t2))
      end.
Proof. reflexivity. Qed.

Lemma str_lower_append a b :
  complete a = true -> str_lower (a +:+ b) = str_lower a +:+ str_lower b.
Proof.
  remember (String.length a) as n eqn:Hn. revert a Hn.
  induction n as [n IH] using lt_wf_ind. intros a Hn Ha.
  assert (forall a', (String.length a' < n)%nat -> complete a' = true ->
            str_lower (a' +:+ b) = str_lower a' +:+ str_lower b) as IH'.
  { intros a' Hlt Ha'. by apply (IH _ Hlt a'). }
  clear IH. subst n.
  destruct a as [|c1 [|c2 t2]].
  - done.
  - (* one byte, which opens none of the two characters *)
    cbn [complete] in Ha. apply negb_true_iff, orb_false_iff in Ha as [H1 H2].
    change (String c1 "" +:+ b) with (String c1 b).
    destruct b as [|c2 [|c3 t3]]; [done| |];
      rewrite str_lower_cons, H1, ?H2; done.
  - pose proof (complete_tail _ _ Ha) as Ha1.
    pose proof (IH' (String c2 t2) ltac:(cbn; lia) Ha1) as IH1.
    change (String c1 (String c2 t2) +:+ b)
      with (String c1 (String c2 (t2 +:+ b))).
    change (String c2 t2 +:+ b) with (String c2 (t2 +:+ b)) in IH1.
    rewrite (str_lower_cons c1 c2 (t2 +:+ b)), (str_lower_cons c1 c2 t2).
    destruct (is_byte 196 c1 && is_byte 176 c2) eqn:H1.
    + rewrite (IH' t2); [done|cbn; lia|by apply (complete_tail c2)].
    + destruct t2 as [|c3 t3].
      * cbn [complete] in Ha. apply andb_prop in Ha as [H2 _].
        apply negb_true_iff in H2.
        change ("" +:+ b) with b in *.
        destruct b as [|c3 t3]; [done|].
        rewrite H2. cbn [andb]. by rewrite IH1.
      * change (String c3 t3 +:+ b) with (String c3 (t3 +:+ b)) in *.
        cbv beta match.
        destruct (is_byte 226 c1 && is_byte 132 c2 && is_byte 170 c3).
        -- rewrite (IH' t3); [done|cbn; lia|].
           by apply (complete_tail c3), (complete_tail c2).
        -- by rewrite IH1.
Qed.

(** A city name found in a text is found in every text around it. *)
Lemma any_in_embed_text keywords pre text post :
  complete pre = true -> complete text = true ->
  any_in keywords (str_lower text) = true ->
  any_in keywords (str_lower (pre +:+ text +:+ post)) = true.
Proof.
  intros Hpre Htext. unfold any_in. rewrite !existsb_exists.
  intros (k & Hk & Hc). exists k. split; [done|].
  rewrite !str_lower_append by done.
  by apply contains_append_l, contains_append_r.
Qed.

(** X19: the location check looks for its city names anywhere in the
    text, whatever the letter case, so text added before or after a
    location never lowers the location's risk score.  (The texts are
    whole: none stops in the middle of a character.) *)
Theorem location_risk_monotone pre location post :
  complete pre = true ->
  complete location = true ->
  score_of (check_location_risk location)
  <= score_of (check_location_risk (pre +:+ location +:+ post)).
Proof.
  intros Hpre Hloc. rewrite !score_of_location.
  pose proof (any_in_embed_text high_risk_locations pre location post
                Hpre Hloc) as Hh.
  pose proof (any_in_embed_text medium_risk_locations pre location post
                Hpre Hloc) as Hm.
  destruct (any_in high_risk_locations (str_lower location)).
  { by rewrite Hh. }
  destruct (any_in medium_risk_locations (str_lower location)).
  { rewrite Hm by done. by destruct (any_in high_risk_locations _). }
  by destruct (any_in high_risk_locations _), (any_in medium_risk_locations _).
Qed.

Lemma location_risk_monotone_witness :
  score_of (check_location_risk "MIAMİ")
  <= score_of (check_location_risk ("Downtown " +:+ "MIAMİ" +:+ ", FL")).
Proof.
  apply (location_risk_monotone "Downtown " "MIAMİ" ", FL"); reflexivity.
Defined.

Lemma fraud_score_fields a v l :
  calculate_fraud_score a v l !! "total_score"
  = Some (VInt (Z.min (a + v + l) 100))
  /\ calculate_fraud_score a v l !! "is_fraud"
     = Some (VBool (bool_decide (65 <= a + v + l)))
  /\ verdict_rank (calculate_fraud_score a v l)
     = if bool_decide (65 <= a + v + l) then 2
       else if bool_decide (40 <= a + v + l) then 1 else 0.
Proof.
  unfold calculate_fraud_score, verdict_rank.
  destruct (Z.leb_spec 65 (Z.min (a + v + l) 100));
    [|destruct (Z.leb_spec 40 (Z.min (a + v + l) 100))];
    rewrite !lookup_insert_ne, !lookup_insert by done;
    repeat case_bool_decide; try lia; done.
Qed.

(** X20: with the scores the vendor and location checks give, which add
    up to between 10 and 50, and an amount score of at most 50 (the cap
    of the amount check), the cap at 100 never changes the total, and
    the transaction is marked as fraud exactly when the three scores add
    up to 65 or more. *)
Theorem verdict_of_tool_scores amount_score vendor location :
  amount_score <= 50 ->
  10 <= score_of (check_vendor_risk vendor)
        + score_of (check_location_risk location) <= 50
  /\ calculate_fraud_score amount_score
       (score_of (check_vendor_risk vendor))
       (score_of (check_location_risk location)) !! "total_score"
     = Some (VInt (amount_score + score_of (check_vendor_risk vendor)
                   + score_of (check_location_risk location)))
  /\ calculate_fraud_score amount_score
       (score_of (check_vendor_risk vendor))
       (score_of (check_location_risk location)) !! "is_fraud"
     = Some (VBool (bool_decide
                      (65 <= amount_score
                             + score_of (check_vendor_risk vendor)
                             + score_of (check_location_risk location)))).
Proof.
  intros Hamount.
  destruct (fraud_score_fields amount_score
              (score_of (check_vendor_risk vendor))
              (score_of (check_location_risk location)))
    as (-> & -> & _).
  rewrite score_of_vendor, score_of_location.
  destruct (any_in high_risk_keywords (lower vendor)),
    (any_in medium_risk_keywords (lower vendor)),
    (any_in high_risk_locations (str_lower location)),
    (any_in medium_risk_locations (str_lower location));
    (split; [lia|split; [f_equal; f_equal; lia|done]]).
Qed.

Lemma verdict_of_tool_scores_witness :
  10 <= score_of (check_vendor_risk "Electronics Store")
        + score_of (check_location_risk "Los Angeles") <= 50
  /\ calculate_fraud_score 50
       (score_of (check_vendor_risk "Electronics Store"))
       (score_of (check_location_risk "Los Angeles")) !! "total_score"
     = Some (VInt (50 + score_of (check_vendor_risk "Electronics Store")
                   + score_of (check_location_risk "Los Angeles")))
  /\ calculate_fraud_score 50
       (score_of (check_vendor_risk "Electronics Store"))
       (score_of (check_location_risk "Los Angeles")) !! "is_fraud"
     = Some (VBool (bool_decide
                      (65 <= 50
                             + score_of (check_vendor_risk "Electronics Store")
                             + score_of (check_location_risk "Los Angeles")))).
Proof.
  apply (verdict_of_tool_scores 50 "Electronics Store" "Los Angeles"). lia.
Defined.

(** X21: raising any of the three contributions never lowers the verdict
    of the aggregation (legitimate, suspicious, fraudulent) nor its total
    score, and the total never exceeds 100. *)
Theorem verdict_monotone a v l a' v' l' :
  a <= a' -> v <= v' -> l <= l' ->
  verdict_rank (calculate_fraud_score a v l)
  <= verdict_rank (calculate_fraud_score a' v' l')
  /\ exists total total',
      calculate_fraud_score a v l !! "total_score" = Some (VInt total)
      /\ calculate_fraud_score a' v' l' !! "total_score" = Some (VInt total')
      /\ total <= total' <= 100.
Proof.
  intros Ha Hv Hl.
  destruct (fraud_score_fields a v l) as (Ht & _ & ->).
  destruct (fraud_score_fields a' v' l') as (Ht' & _ & ->).
  split.
  - repeat case_bool_decide; lia.
  - eexists _, _. split; [done|]. split; [done|]. lia.
Qed.

Lemma verdict_monotone_witness :
  verdict_rank (calculate_fraud_score 10 5 5)
  <= verdict_rank (calculate_fraud_score 60 30 20)
  /\ exists total total',
      calculate_fraud_score 10 5 5 !! "total_score" = Some (VInt total)
      /\ calculate_fraud_score 60 30 20 !! "total_score"
         = Some (VInt total')
      /\ total <= total' <= 100.
Proof.
  apply (verdict_monotone 10 5 5 60 30 20); lia.
Defined.

(** ** The operator's script *)

Import CallbackScript.

(** X22: the event the script sends for a callback id takes the callback
    way of the handler, whatever the id and the state of the run: the
    handler returns the event as it is, with its "approved" result, after
    one log line; it reads no transaction field, runs no step and leaves
    the ledger alone. *)
Theorem script_payload_is_callback_event E callback_id ctx :
  handler E (payload callback_id) ctx
  = (Ok (VDict (payload callback_id)),
     {| ledger := ledger ctx;
        trace :=
          trace ctx
          ++ [LogInfo "Callback received for callbackId: {}"
                [VStr callback_id]] |}).
Proof. by apply run_callback. Qed.

(** X23: the script prints its success line, and nothing else, when the
    stripped id is not empty and the invocation answered status 202; in
    every other case (empty id, another status, an exception) the
    success line is not printed. *)
Theorem success_line_only_for_202 strip client typed :
  (fst (main strip client typed) = ["Callback sent successfully (HTTP 202)"]
   /\ strip typed <> ""
   /\ invoke client function_arn "Event" (VDict (payload (strip typed)))
      = Ok 202)
  \/ (~ In "Callback sent successfully (HTTP 202)"
          (fst (main strip client typed))
      /\ (strip typed = ""
          \/ invoke client function_arn "Event"
               (VDict (payload (strip typed))) <> Ok 202)).
Proof.
  unfold main.
  destruct (String.eqb_spec (strip typed) "") as [Hid|Hid].
  { right. split; [by intros [|[]]|by left]. }
  destruct (invoke client function_arn "Event" _) as [status|e].
  - destruct (Z.eqb_spec status 202) as [->|Hs]; cbn.
    + by left.
    + right. split; [by intros [|[]]|]. right. by intros [=].
  - right. split; [by intros []|]. by right.
Qed.
